(** * Scanner dialogs of quantix-inventory-ai

    A shallow embedding of the two camera dialogs
    [src/components/ExpiryDateScannerDialog.tsx] and
    [src/components/BarcodeScannerDialog.tsx]:

    - [JS]      the host primitives the components call (string helpers,
                regular expressions, camera tracks);
    - [Expiry]  the date-extraction pipeline, the dialog around it and
                two instances of the host's Date constructor;
    - [Barcode] the detection loop, its debounce and its teardown.

    React state cells are fields of a state record; a closure created
    during a render carries the values of the state cells it read in
    that render (its environment), because a function component binds
    them as constants of the render. *)

From Stdlib Require Import String Ascii List ZArith Lia Bool Arith.
Import ListNotations.
Open Scope string_scope.

(* ================================================================== *)
(** ** Host primitives *)
(* ================================================================== *)

Module JS.

(** Text is a [string]; a character outside ASCII is neither a digit,
    nor a word character, nor a separator, which is all the two
    patterns can observe of it. *)

Definition code (c : ascii) : nat := nat_of_ascii c.

Definition between (lo hi n : nat) : bool :=
  ((lo <=? n) && (n <=? hi))%nat.

(** [\d] *)
Definition is_digit (c : ascii) : bool := between 48 57 (code c).

(** [\w], that is [A-Za-z0-9_] *)
Definition is_word (c : ascii) : bool :=
  between 65 90 (code c) || between 97 122 (code c)
  || is_digit c || (code c =? 95)%nat.

(** the class [[\/\-\.]] *)
Definition is_sep (c : ascii) : bool :=
  ((code c =? 47) || (code c =? 45) || (code c =? 46))%nat.

(** [String.prototype.includes] *)
Fixpoint includes (hay needle : string) : bool :=
  prefix needle hay
  || match hay with
     | EmptyString => false
     | String _ rest => includes rest needle
     end.

Fixpoint repeat_char (c : ascii) (n : nat) : string :=
  match n with
  | O => EmptyString
  | S k => String c (repeat_char c k)
  end.

(** [String.prototype.padStart] with a one-character filler *)
Definition padStart (s : string) (target : nat) (fill : ascii) : string :=
  repeat_char fill (target - String.length s) ++ s.

(** *** The regular expressions

    The two literals are built from three kinds of atoms only. *)

Inductive atom : Type :=
| WordBoundary                       (* \b *)
| Separator                          (* [\/\-\.] *)
| CaptureDigits (lo hi : nat).       (* (\d{lo,hi}), greedy *)

Record RegExp : Type := {
  source : string;      (* RegExp.prototype.source *)
  atoms  : list atom
}.

Definition opt_word (c : option ascii) : bool :=
  match c with Some a => is_word a | None => false end.

(** [\b] holds where exactly one of the two neighbours is a word
    character; the ends of the text count as non-word. *)
Definition at_boundary (prev : option ascii) (s : list ascii) : bool :=
  xorb (opt_word prev) (opt_word (hd_error s)).

Fixpoint take_digits (k : nat) (s : list ascii)
  : option (list ascii * list ascii) :=
  match k with
  | O => Some ([], s)
  | S k' =>
      match s with
      | c :: s' =>
          if is_digit c then
            match take_digits k' s' with
            | Some (d, rest) => Some (c :: d, rest)
            | None => None
            end
          else None
      | [] => None
      end
  end.

Definition last_char (d : list ascii) (prev : option ascii) : option ascii :=
  match rev d with
  | c :: _ => Some c
  | [] => prev
  end.

Definition continuation : Type :=
  option ascii -> list ascii -> option (list string * list ascii).

(** A greedy bounded repetition: the longest run first, then one digit
    fewer, down to [lo], each time asking the rest of the pattern. *)
Fixpoint greedy (k : continuation) (lo extra : nat)
    (prev : option ascii) (s : list ascii)
  : option (list string * list ascii) :=
  let attempt n :=
    match take_digits n s with
    | Some (d, s') =>
        match k (last_char d prev) s' with
        | Some (caps, rest) => Some (string_of_list_ascii d :: caps, rest)
        | None => None
        end
    | None => None
    end in
  match extra with
  | O => attempt lo
  | S e =>
      match attempt (lo + extra) with
      | Some r => Some r
      | None => greedy k lo e prev s
      end
  end.

(** Backtracking match of a sequence of atoms at one position; the
    result is the captures in order and the text left after the match. *)
Fixpoint match_atoms (p : list atom) (prev : option ascii) (s : list ascii)
  : option (list string * list ascii) :=
  match p with
  | [] => Some ([], s)
  | WordBoundary :: p' =>
      if at_boundary prev s then match_atoms p' prev s else None
  | Separator :: p' =>
      match s with
      | c :: s' => if is_sep c then match_atoms p' (Some c) s' else None
      | [] => None
      end
  | CaptureDigits lo hi :: p' =>
      greedy (match_atoms p') lo (hi - lo) prev s
  end.

(** The array [exec] returns: index 0 is the matched text, indices
    1.. are the captures. *)
Definition match_array (s rest : list ascii) (caps : list string)
  : list string :=
  string_of_list_ascii (firstn (List.length s - List.length rest) s) :: caps.

(** All results of [while ((match = pattern.exec(text)) !== null)] for
    a global pattern whose [lastIndex] starts at 0: the leftmost match
    at or after [lastIndex], then again from the end of that match.
    [skip] counts the characters still covered by the previous match.
    Neither pattern can match the empty text, so the scan stops at the
    end of the text. *)
Fixpoint exec_all (p : list atom) (prev : option ascii) (s : list ascii)
    (skip : nat) : list (list string) :=
  match s with
  | [] => []
  | c :: s' =>
      match skip with
      | S k => exec_all p (Some c) s' k
      | O =>
          match match_atoms p prev s with
          | Some (caps, rest) =>
              match_array s rest caps
              :: exec_all p (Some c) s' (List.length s - List.length rest - 1)
          | None => exec_all p (Some c) s' 0
          end
      end
  end.

Definition matches (re : RegExp) (text : string) : list (list string) :=
  exec_all (atoms re) None (list_ascii_of_string text) 0.

(** *** The camera

    A [MediaStream] is the list of the tracks it owns; the host keeps
    the list of the tracks that are running. *)
Definition MediaStream : Type := list nat.

(** [stream.getTracks().forEach(track => track.stop())] *)
Definition stop_tracks (m : MediaStream) (running : list nat) : list nat :=
  filter (fun t => negb (existsb (Nat.eqb t) m)) running.

End JS.

(* ================================================================== *)
(** ** The expiry-date dialog *)
(* ================================================================== *)

Module Expiry.
Import JS.

(** *** Date extraction (the body of the [try] in [captureAndScan]) *)

(** dd/mm/yyyy, dd-mm-yyyy, dd.mm.yyyy *)
Definition dmy_pattern : RegExp := {|
  source := "\b(\d{1,2})[\/\-\.](\d{1,2})[\/\-\.](\d{4})\b";
  atoms  := [WordBoundary; CaptureDigits 1 2; Separator;
             CaptureDigits 1 2; Separator; CaptureDigits 4 4; WordBoundary]
|}.

(** yyyy-mm-dd, yyyy/mm/dd *)
Definition ymd_pattern : RegExp := {|
  source := "\b(\d{4})[\/\-\.](\d{1,2})[\/\-\.](\d{1,2})\b";
  atoms  := [WordBoundary; CaptureDigits 4 4; Separator;
             CaptureDigits 1 2; Separator; CaptureDigits 1 2; WordBoundary]
|}.

Definition datePatterns : list RegExp := [dmy_pattern; ymd_pattern].

Definition group (m : list string) (i : nat) : string := nth i m "".

(** The two branches of the format test, as written. *)
Definition dateStr (pattern : RegExp) (m : list string) : string :=
  if includes (source pattern) "(\d{4})" then
    let year := group m 1 in
    let month := padStart (group m 2) 2 "0" in
    let day := padStart (group m 3) 2 "0" in
    year ++ "-" ++ month ++ "-" ++ day
  else
    let day := padStart (group m 1) 2 "0" in
    let month := padStart (group m 2) 2 "0" in
    let year := group m 3 in
    year ++ "-" ++ month ++ "-" ++ day.

(** Every string a pattern's matches are assembled into, before the
    validity test. *)
Definition candidates (pattern : RegExp) (text : string) : list string :=
  map (dateStr pattern) (matches pattern text).

Section Host.

(** [new Date(s)] as the pipeline observes it: [None] when
    [getTime()] is NaN, otherwise the value of [getFullYear()].
    ECMAScript fixes the result for the ISO forms only; for any
    other string the host may apply a format of its own. *)
Variable newDate : string -> option Z.

Definition date_ok (s : string) : bool :=
  match newDate s with
  | Some fullYear => (2020 <? fullYear)%Z && (fullYear <? 2050)%Z
  | None => false
  end.

(** One turn of the [while] loop. *)
Definition push_if_ok (pattern : RegExp) (found : list string)
    (m : list string) : list string :=
  let d := dateStr pattern m in
  if date_ok d then found ++ [d] else found.

(** One turn of [datePatterns.forEach]. *)
Definition scan_pattern (text : string) (found : list string)
    (pattern : RegExp) : list string :=
  fold_left (push_if_ok pattern) (matches pattern text) found.

Definition foundDates (text : string) : list string :=
  fold_left (scan_pattern text) datePatterns [].

(** *** The dialog around the pipeline *)

Inductive Toast : Type :=
| CameraUnavailable
| NoValidDate
| DateScanned (d : string)
| SeveralDates (d : string)
| ScanError.

(** What leaves the component, in order. *)
Inductive Call : Type :=
| OnDetected (scannedDate : string)
| OnClose
| ShowToast (t : Toast).

Record State : Type := {
  open : bool;                     (* the prop, as last rendered *)
  isScanning : bool;               (* useState(false) *)
  stream : option MediaStream;     (* useState(null) *)
  cleanup : option (option MediaStream);
    (* the registered effect cleanup and the [stream] it closed over *)
  live : list nat;                 (* tracks the camera still runs *)
  pending : nat;                   (* recognize() calls not yet settled *)
  calls : list Call
}.

(** The component once mounted, closed: its first effect ran
    [stopCamera] to no avail and left a cleanup that saw no stream. *)
Definition initial : State := {|
  open := false; isScanning := false; stream := None;
  cleanup := Some None; live := []; pending := 0; calls := []
|}.

Definition setIsScanning (b : bool) (s : State) : State :=
  {| open := open s; isScanning := b; stream := stream s; cleanup := cleanup s;
     live := live s; pending := pending s; calls := calls s |}.

Definition setStream (m : option MediaStream) (s : State) : State :=
  {| open := open s; isScanning := isScanning s; stream := m; cleanup := cleanup s;
     live := live s; pending := pending s; calls := calls s |}.

Definition set_cleanup (c : option (option MediaStream)) (s : State) : State :=
  {| open := open s; isScanning := isScanning s; stream := stream s; cleanup := c;
     live := live s; pending := pending s; calls := calls s |}.

Definition set_live (l : list nat) (s : State) : State :=
  {| open := open s; isScanning := isScanning s; stream := stream s; cleanup := cleanup s;
     live := l; pending := pending s; calls := calls s |}.

Definition set_pending (n : nat) (s : State) : State :=
  {| open := open s; isScanning := isScanning s; stream := stream s; cleanup := cleanup s;
     live := live s; pending := n; calls := calls s |}.

Definition emit (cs : list Call) (s : State) : State :=
  {| open := open s; isScanning := isScanning s; stream := stream s; cleanup := cleanup s;
     live := live s; pending := pending s; calls := calls s ++ cs |}.

Definition set_open (o : bool) (s : State) : State :=
  {| open := o; isScanning := isScanning s; stream := stream s;
     cleanup := cleanup s; live := live s; pending := pending s;
     calls := calls s |}.

(** [startCamera], with the answer of [getUserMedia]; the request and
    its answer are taken as one step. *)
Definition startCamera (answer : option MediaStream) (s : State) : State :=
  match answer with
  | Some mediaStream =>
      setStream (Some mediaStream) (set_live (live s ++ mediaStream) s)
  | None => emit [ShowToast CameraUnavailable] s
  end.

(** [stopCamera] as created by a render in which [stream] had the
    value [stream_c]. *)
Definition stopCamera (stream_c : option MediaStream) (s : State) : State :=
  match stream_c with
  | Some m => setStream None (set_live (stop_tracks m (live s)) s)
  | None => s
  end.

(** The effect on [[open]]: the cleanup of the previous run, then the
    body of the render that saw the new value. *)
Definition effect (o : bool) (answer : option MediaStream) (s : State)
  : State :=
  let stream_c := stream s in
  let s1 := match cleanup s with
            | Some old => stopCamera old s
            | None => s
            end in
  let s2 := if o then startCamera answer s1 else stopCamera stream_c s1 in
  set_cleanup (Some stream_c) (set_open o s2).

Definition unmount (s : State) : State :=
  match cleanup s with
  | Some old => set_cleanup None (stopCamera old s)
  | None => s
  end.

(** [captureAndScan] up to [await Tesseract.recognize]. *)
Definition captureAndScan_begin (video canvas ctx : bool) (s : State)
  : State :=
  if negb video || negb canvas then s
  else
    let s1 := setIsScanning true s in
    if negb ctx then s1
    else set_pending (S (pending s1)) s1.

(** The three branches on [foundDates.length]. *)
Definition report (found : list string) : list Call :=
  match found with
  | [] => [ShowToast NoValidDate]
  | [d] => [OnDetected d; OnClose; ShowToast (DateScanned d)]
  | d :: _ => [OnDetected d; OnClose; ShowToast (SeveralDates d)]
  end.

(** [captureAndScan] from the settlement of [recognize] on: the rest
    of the [try], or the [catch], and then the [finally]. *)
Definition captureAndScan_resume (result : option string) (s : State)
  : State :=
  let s1 := set_pending (Nat.pred (pending s)) s in
  let s2 := match result with
            | Some text => emit (report (foundDates text)) s1
            | None => emit [ShowToast ScanError] s1
            end in
  setIsScanning false s2.

Inductive Event : Type :=
| SetOpen (o : bool) (answer : option MediaStream)
    (* the parent changes [open]; [answer] is what getUserMedia gives *)
| Unmount
| Click (video canvas ctx : bool)
    (* the scan button, with what the two refs and getContext hold *)
| Resolve (text : string)      (* recognize() fulfils *)
| Reject.                      (* recognize() rejects *)

(** The button is [disabled={!stream || isScanning}]; a settlement
    needs a request in flight. *)
Definition step (s : State) (e : Event) : State :=
  match e with
  | SetOpen o answer =>
      if Bool.eqb o (open s) then s else effect o answer s
  | Unmount => unmount s
  | Click video canvas ctx =>
      match stream s with
      | Some _ =>
          if isScanning s then s else captureAndScan_begin video canvas ctx s
      | None => s
      end
  | Resolve text =>
      if (0 <? pending s)%nat then captureAndScan_resume (Some text) s else s
  | Reject =>
      if (0 <? pending s)%nat then captureAndScan_resume None s else s
  end.

Definition run (s : State) (trace : list Event) : State :=
  fold_left step trace s.

End Host.

(** *** Two hosts

    [new Date] is fixed by ECMAScript on the ISO date form only. *)

Fixpoint number_of (acc : Z) (s : string) : option Z :=
  match s with
  | EmptyString => Some acc
  | String c rest =>
      if is_digit c
      then number_of (10 * acc + Z.of_nat (code c - 48))%Z rest
      else None
  end.

(** The text before the first ['-'] and the text after it. *)
Fixpoint cut (s : string) : string * option string :=
  match s with
  | EmptyString => (EmptyString, None)
  | String c rest =>
      if (code c =? 45)%nat then (EmptyString, Some rest)
      else let '(a, b) := cut rest in (String c a, b)
  end.

Definition three_groups (s : string) : option (string * string * string) :=
  match cut s with
  | (a, Some r1) =>
      match cut r1 with
      | (b, Some r2) =>
          match cut r2 with
          | (c, None) => Some (a, b, c)
          | _ => None
          end
      | _ => None
      end
  | _ => None
  end.

Definition leap (y : Z) : bool :=
  ((y mod 4 =? 0) && negb (y mod 100 =? 0) || (y mod 400 =? 0))%Z.

Definition days_in_month (y m : Z) : Z :=
  if (m =? 2)%Z then (if leap y then 29 else 28)%Z
  else if ((m =? 4) || (m =? 6) || (m =? 9) || (m =? 11))%Z then 30%Z
  else 31%Z.

(** The date-only form [YYYY-MM-DD] with a real calendar day, read in
    the UTC time zone, so that [getFullYear()] is the year written. *)
Definition iso_year (s : string) : option Z :=
  match three_groups s with
  | Some (a, b, c) =>
      if ((String.length a =? 4) && (String.length b =? 2)
          && (String.length c =? 2))%nat
      then
        match number_of 0 a, number_of 0 b, number_of 0 c with
        | Some y, Some m, Some d =>
            if ((1 <=? m) && (m <=? 12) && (1 <=? d)
                && (d <=? days_in_month y m))%Z
            then Some y else None
        | _, _, _ => None
        end
      else None
  | None => None
  end.

(** Whether a string opens with four digits, as every ISO form of a
    year within 0..9999 does. *)
Definition year_first (s : string) : bool :=
  match s with
  | String a (String b (String c (String d _))) =>
      is_digit a && is_digit b && is_digit c && is_digit d
  | _ => false
  end.

(** Whether the second or the third character is ['-'], as in
    [1-02-2030] and [01-02-2030]; no ISO form has one there. *)
Definition dash_in_year_position (s : string) : bool :=
  match s with
  | String _ (String b rest) =>
      (code b =? 45)%nat
      || match rest with
         | String c _ => (code c =? 45)%nat
         | EmptyString => false
         end
  | _ => false
  end.

(** A host with no format of its own: anything but the ISO date form
    is an invalid date. *)
Definition strictDate (s : string) : option Z := iso_year s.

(** A host whose own format reads three groups of digits joined by
    ['-'] as month-day-year when the first group is no ISO year, the
    way V8's legacy parser does: month 1..12, day 1..31, a year below
    50 is in 20xx and one below 100 in 19xx; the date is local, so
    [getFullYear()] is that year. *)
Definition legacyDate (s : string) : option Z :=
  match iso_year s with
  | Some y => Some y
  | None =>
      match three_groups s with
      | Some (a, b, c) =>
          if (String.length a <=? 2)%nat then
            match number_of 0 a, number_of 0 b, number_of 0 c with
            | Some m, Some d, Some y =>
                if ((1 <=? m) && (m <=? 12) && (1 <=? d) && (d <=? 31))%Z
                then Some (if (y <? 50) then y + 2000
                           else if (y <? 100) then y + 1900 else y)%Z
                else None
            | _, _, _ => None
            end
          else None
      | None => None
      end
  end.

(** *** Shapes of texts and of call sequences *)

(** No character of the text is a digit. *)
Fixpoint no_digit (s : string) : bool :=
  match s with
  | EmptyString => true
  | String c rest => negb (is_digit c) && no_digit rest
  end.

(** The ISO date form: four digits, two digits, two digits, joined by
    dashes. *)
Definition iso_shape (s : string) : bool :=
  match list_ascii_of_string s with
  | [y1; y2; y3; y4; s1; m1; m2; s2; d1; d2] =>
      is_digit y1 && is_digit y2 && is_digit y3 && is_digit y4
      && (code s1 =? 45)%nat && is_digit m1 && is_digit m2
      && (code s2 =? 45)%nat && is_digit d1 && is_digit d2
  | _ => false
  end.

(** Every [onDetected] in a sequence of calls has [onClose] as the very
    next call; [owed] says that the call before was an [onDetected]. *)
Fixpoint closes_follow (owed : bool) (cs : list Call) : bool :=
  match cs with
  | [] => negb owed
  | OnClose :: rest => closes_follow false rest
  | OnDetected _ :: rest => negb owed && closes_follow true rest
  | ShowToast _ :: rest => negb owed && closes_follow false rest
  end.

(** No recognition request is in flight, or one is and [isScanning] is
    set. *)
Definition one_request (s : State) : Prop :=
  pending s = 0%nat \/ (pending s = 1%nat /\ isScanning s = true).


End Expiry.

(* ================================================================== *)
(** ** The barcode dialog *)
(* ================================================================== *)

Module Barcode.
Import JS.

Inductive Call : Type :=
| OnDetected (code : string)
| OnClose.

(** The user-facing texts of the [catch] in [startScanning]. *)
Inductive Message : Type :=
| StartFailed            (* the default text *)
| PermissionNeeded       (* NotAllowedError *)
| NoCamera               (* NotFoundError *)
| CameraBusy             (* NotReadableError *)
| PermissionSettings     (* message mentions Permission *)
| ConstraintProblem.     (* message mentions constraints *)

(** The state cells, [useState]. *)
Record Cells : Type := {
  scanning : bool;
  error : option Message;
  success : bool;
  lastDetectionTime : Z
}.

(** What [decodeFromVideoDevice] hands back: the decode loop it
    started, the stream it opened, and whether its [stop] throws. *)
Record Controls : Type := {
  decoder_id : nat;
  decoder_stream : MediaStream;
  stop_throws : bool
}.

(** The mutable cells, [useRef]; an object held or not is a [bool]. *)
Record Refs : Type := {
  scannerRef : bool;
  barcodeDetectorRef : bool;
  animationRef : option nat;
  videoRef : bool;
  streamRef : option MediaStream;
  controlsRef : option Controls
}.

(** What a closure holds of the render that created it: the state
    cells it reads are constants of that render. *)
Record Env : Type := {
  scanning_c : bool;
  lastDetectionTime_c : Z
}.

(** The host's side: camera tracks, frame requests, promises, timers. *)
Record Host : Type := {
  open : bool;                    (* the prop, as last rendered *)
  cleanup : bool;                 (* an effect cleanup is registered *)
  live : list nat;                (* tracks the camera still runs *)
  next_id : nat;                  (* the next handle the host gives out *)
  frames : list (nat * Env);      (* requestAnimationFrame(scan), not yet run *)
  detecting : list Env;           (* detect() promises not yet settled *)
  decoders : list (nat * Env);    (* running ZXing loops and their callback *)
  starts : list Env;              (* 100 ms timers not yet fired *)
  deliveries : list string        (* 800 ms timers not yet fired *)
}.

Record State : Type := {
  cells : Cells;
  refs : Refs;
  host : Host;
  calls : list Call
}.

(** The component once mounted, closed: its first effect ran
    [stopScanning] on nothing and left its cleanup. *)
Definition initial : State := {|
  cells := {| scanning := false; error := None; success := false;
              lastDetectionTime := 0 |};
  refs := {| scannerRef := false; barcodeDetectorRef := false;
             animationRef := None; videoRef := false; streamRef := None;
             controlsRef := None |};
  host := {| open := false; cleanup := true; live := []; next_id := 1;
             frames := []; detecting := []; decoders := []; starts := [];
             deliveries := [] |};
  calls := []
|}.

(** *** Field updates *)

Definition with_cells (f : Cells -> Cells) (s : State) : State :=
  {| cells := f (cells s); refs := refs s; host := host s; calls := calls s |}.
Definition with_refs (f : Refs -> Refs) (s : State) : State :=
  {| cells := cells s; refs := f (refs s); host := host s; calls := calls s |}.
Definition with_host (f : Host -> Host) (s : State) : State :=
  {| cells := cells s; refs := refs s; host := f (host s); calls := calls s |}.
Definition emit (cs : list Call) (s : State) : State :=
  {| cells := cells s; refs := refs s; host := host s; calls := calls s ++ cs |}.

Definition setScanning (b : bool) : State -> State :=
  with_cells (fun c => {| scanning := b; error := error c;
    success := success c; lastDetectionTime := lastDetectionTime c |}).
Definition setError (e : option Message) : State -> State :=
  with_cells (fun c => {| scanning := scanning c; error := e;
    success := success c; lastDetectionTime := lastDetectionTime c |}).
Definition setSuccess (b : bool) : State -> State :=
  with_cells (fun c => {| scanning := scanning c; error := error c;
    success := b; lastDetectionTime := lastDetectionTime c |}).
Definition setLastDetectionTime (t : Z) : State -> State :=
  with_cells (fun c => {| scanning := scanning c; error := error c;
    success := success c; lastDetectionTime := t |}).

Definition set_scannerRef (b : bool) : State -> State :=
  with_refs (fun r => {| scannerRef := b;
    barcodeDetectorRef := barcodeDetectorRef r; animationRef := animationRef r;
    videoRef := videoRef r; streamRef := streamRef r;
    controlsRef := controlsRef r |}).
Definition set_barcodeDetectorRef (b : bool) : State -> State :=
  with_refs (fun r => {| scannerRef := scannerRef r;
    barcodeDetectorRef := b; animationRef := animationRef r;
    videoRef := videoRef r; streamRef := streamRef r;
    controlsRef := controlsRef r |}).
Definition set_animationRef (a : option nat) : State -> State :=
  with_refs (fun r => {| scannerRef := scannerRef r;
    barcodeDetectorRef := barcodeDetectorRef r; animationRef := a;
    videoRef := videoRef r; streamRef := streamRef r;
    controlsRef := controlsRef r |}).
Definition set_videoRef (b : bool) : State -> State :=
  with_refs (fun r => {| scannerRef := scannerRef r;
    barcodeDetectorRef := barcodeDetectorRef r; animationRef := animationRef r;
    videoRef := b; streamRef := streamRef r;
    controlsRef := controlsRef r |}).
Definition set_streamRef (m : option MediaStream) : State -> State :=
  with_refs (fun r => {| scannerRef := scannerRef r;
    barcodeDetectorRef := barcodeDetectorRef r; animationRef := animationRef r;
    videoRef := videoRef r; streamRef := m;
    controlsRef := controlsRef r |}).
Definition set_controlsRef (c : option Controls) : State -> State :=
  with_refs (fun r => {| scannerRef := scannerRef r;
    barcodeDetectorRef := barcodeDetectorRef r; animationRef := animationRef r;
    videoRef := videoRef r; streamRef := streamRef r;
    controlsRef := c |}).

Definition set_open (b : bool) : State -> State :=
  with_host (fun h => {| open := b; cleanup := cleanup h; live := live h;
    next_id := next_id h; frames := frames h; detecting := detecting h;
    decoders := decoders h; starts := starts h; deliveries := deliveries h |}).
Definition set_cleanup (b : bool) : State -> State :=
  with_host (fun h => {| open := open h; cleanup := b; live := live h;
    next_id := next_id h; frames := frames h; detecting := detecting h;
    decoders := decoders h; starts := starts h; deliveries := deliveries h |}).
Definition set_live (l : list nat) : State -> State :=
  with_host (fun h => {| open := open h; cleanup := cleanup h; live := l;
    next_id := next_id h; frames := frames h; detecting := detecting h;
    decoders := decoders h; starts := starts h; deliveries := deliveries h |}).
Definition set_next_id (n : nat) : State -> State :=
  with_host (fun h => {| open := open h; cleanup := cleanup h; live := live h;
    next_id := n; frames := frames h; detecting := detecting h;
    decoders := decoders h; starts := starts h; deliveries := deliveries h |}).
Definition set_frames (f : list (nat * Env)) : State -> State :=
  with_host (fun h => {| open := open h; cleanup := cleanup h; live := live h;
    next_id := next_id h; frames := f; detecting := detecting h;
    decoders := decoders h; starts := starts h; deliveries := deliveries h |}).
Definition set_detecting (d : list Env) : State -> State :=
  with_host (fun h => {| open := open h; cleanup := cleanup h; live := live h;
    next_id := next_id h; frames := frames h; detecting := d;
    decoders := decoders h; starts := starts h; deliveries := deliveries h |}).
Definition set_decoders (d : list (nat * Env)) : State -> State :=
  with_host (fun h => {| open := open h; cleanup := cleanup h; live := live h;
    next_id := next_id h; frames := frames h; detecting := detecting h;
    decoders := d; starts := starts h; deliveries := deliveries h |}).
Definition set_starts (l : list Env) : State -> State :=
  with_host (fun h => {| open := open h; cleanup := cleanup h; live := live h;
    next_id := next_id h; frames := frames h; detecting := detecting h;
    decoders := decoders h; starts := l; deliveries := deliveries h |}).
Definition set_deliveries (l : list string) : State -> State :=
  with_host (fun h => {| open := open h; cleanup := cleanup h; live := live h;
    next_id := next_id h; frames := frames h; detecting := detecting h;
    decoders := decoders h; starts := starts h; deliveries := l |}).

(** The constants a render binds for its closures. *)
Definition render (s : State) : Env :=
  {| scanning_c := scanning (cells s);
     lastDetectionTime_c := lastDetectionTime (cells s) |}.

(** *** Teardown *)

Definition without (id : nat) {A : Type} (l : list (nat * A)) : list (nat * A) :=
  filter (fun p => negb (fst p =? id)%nat) l.

(** A call either returns or throws. *)
Inductive Completion (A : Type) : Type :=
| Returned (a : A)
| Thrown.
Arguments Returned {A} a.
Arguments Thrown {A}.

(** [controls.stop()]: ends the decode loop and its stream, or throws. *)
Definition controls_stop (c : Controls) (s : State) : Completion State :=
  if stop_throws c then Thrown
  else Returned
    (set_decoders (without (decoder_id c) (decoders (host s)))
       (set_live (stop_tracks (decoder_stream c) (live (host s))) s)).

Definition stopScanning (s : State) : Completion State :=
  (* if (animationRef.current): a handle is a non-zero number *)
  let s1 := match animationRef (refs s) with
            | Some id =>
                if (id =? 0)%nat then s
                else set_animationRef None
                       (set_frames (without id (frames (host s))) s)
            | None => s
            end in
  let s2 := if barcodeDetectorRef (refs s1)
            then set_barcodeDetectorRef false s1 else s1 in
  let s3 := match controlsRef (refs s2) with
            | Some c =>
                let after := match controls_stop c s2 with
                             | Returned s' => s'
                             | Thrown => s2          (* caught and logged *)
                             end in
                set_controlsRef None after
            | None => s2
            end in
  let s4 := if scannerRef (refs s3) then set_scannerRef false s3 else s3 in
  let s5 := match streamRef (refs s4) with
            | Some m =>
                set_streamRef None
                  (set_live (stop_tracks m (live (host s4))) s4)
            | None => s4
            end in
  Returned (setSuccess false (setError None (setScanning false s5))).

(** [stopScanning();] as its callers write it: the function is
    [async], so the caller goes on whatever happens inside. *)
Definition stopped (s : State) : State :=
  match stopScanning s with
  | Returned s' => s'
  | Thrown => s
  end.

(** *** Detection *)

(** The debounce test and what follows an accepted result; [env] is
    the closure that runs it. *)
Definition accept (env : Env) (code : string) (now : Z) (s : State) : State :=
  if (now - lastDetectionTime_c env >? 2000)%Z then
    let s1 := setLastDetectionTime now s in
    let s2 := setSuccess true s1 in
    set_deliveries (deliveries (host s2) ++ [code]) s2
  else s.

(** The body of the 800 ms timer. *)
Definition deliver (code : string) (s : State) : State :=
  emit [OnDetected code; OnClose] (stopped s).

(** [animationRef.current = requestAnimationFrame(scan)] *)
Definition request_frame (env : Env) (s : State) : State :=
  let id := next_id (host s) in
  set_animationRef (Some id)
    (set_next_id (S id) (set_frames (frames (host s) ++ [(id, env)]) s)).

(** [scan] up to [await detect(...)]. *)
Definition scan_begin (env : Env) (s : State) : State :=
  if negb (barcodeDetectorRef (refs s)) || negb (videoRef (refs s)) then s
  else set_detecting (detecting (host s) ++ [env]) s.

(** How [detect] settles: the [rawValue] of each barcode it found
    ([None] where the property is missing), or a rejection. *)
Inductive Detection : Type :=
| Barcodes (rawValues : list (option string))
| DetectFailed.

(** [scan] from the settlement of [detect] on. *)
Definition scan_resume (env : Env) (d : Detection) (now : Z) (s : State)
  : State :=
  let s1 := match d with
            | Barcodes (first :: _) =>
                let code := match first with
                            | Some v => v
                            | None => ""
                            end in
                accept env code now s
            | Barcodes [] => s
            | DetectFailed => s                      (* caught and logged *)
            end in
  if scanning_c env then request_frame env s1 else s1.

(** The callback given to [decodeFromVideoDevice]. *)
Definition on_decode (env : Env) (result : option string) (now : Z)
    (s : State) : State :=
  match result with
  | Some text => accept env text now s
  | None => s
  end.

(** *** Start *)

Inductive Camera : Type :=
| Granted (m : MediaStream)
| Refused (name message : string).

(** Which branch of ["BarcodeDetector" in window] runs and how the
    camera answers. *)
Inductive Backend : Type :=
| Native (c : Camera)
| ZXing (c : Camera) (stop_throws : bool).

Definition classify (name message : string) : Message :=
  if (name =? "NotAllowedError")%string then PermissionNeeded
  else if (name =? "NotFoundError")%string then NoCamera
  else if (name =? "NotReadableError")%string then CameraBusy
  else if includes message "Permission" then PermissionSettings
  else if includes message "constraints" then ConstraintProblem
  else StartFailed.

Definition start_failed (name message : string) (s : State) : State :=
  setError (Some (classify name message)) (setScanning false s).

(** [startScanning] as created by the render [env]; the awaits inside
    are taken as one step, [b] telling which branch runs and how the
    camera answers. *)
Definition startScanning (env : Env) (b : Backend) (s : State) : State :=
  let s0 := setLastDetectionTime 0
              (setScanning true (setSuccess false (setError None s))) in
  if negb (videoRef (refs s0))
  then start_failed "Error" "Video element not found" s0
  else
    match b with
    | Native (Granted m) =>
        let s1 := set_streamRef (Some m)
                    (set_live (live (host s0) ++ m) s0) in
        let s2 := set_barcodeDetectorRef true s1 in
        request_frame env s2
    | Native (Refused name message) => start_failed name message s0
    | ZXing (Granted m) throws =>
        let s1 := set_scannerRef true s0 in
        let id := next_id (host s1) in
        let s2 := set_next_id (S id)
                    (set_decoders (decoders (host s1) ++ [(id, env)])
                       (set_live (live (host s1) ++ m) s1)) in
        set_controlsRef
          (Some {| decoder_id := id; decoder_stream := m;
                   stop_throws := throws |}) s2
    | ZXing (Refused name message) _ =>
        start_failed name message (set_scannerRef true s0)
    end.

(** *** Events *)

(** The effect on [[open]]: the previous cleanup, then the body of the
    render that saw the new value. *)
Definition effect (o : bool) (s : State) : State :=
  let env := render s in
  let s1 := if cleanup (host s) then stopped s else s in
  let s2 := if o
            then set_starts (starts (host s1) ++ [env]) s1
            else stopped s1 in
  set_cleanup true (set_open o s2).

Inductive Event : Type :=
| SetOpen (o : bool)                 (* the parent changes [open] *)
| Unmount
| Video (present : bool)             (* the video element appears or goes *)
| StartTimer (b : Backend)           (* a 100 ms timer fires *)
| Retry (b : Backend)                (* the button shown with an error *)
| Frame                              (* the host runs a requested frame *)
| Detected (d : Detection) (now : Z) (* a detect() promise settles *)
| Decoded (id : nat) (result : option string) (now : Z)
                                     (* a ZXing loop calls back *)
| DeliveryTimer.                     (* an 800 ms timer fires *)

Definition lookup {A : Type} (id : nat) (l : list (nat * A)) : option A :=
  match find (fun p => (fst p =? id)%nat) l with
  | Some p => Some (snd p)
  | None => None
  end.

Definition step (s : State) (e : Event) : State :=
  match e with
  | SetOpen o => if Bool.eqb o (open (host s)) then s else effect o s
  | Unmount =>
      if cleanup (host s) then set_cleanup false (stopped s) else s
  | Video present => set_videoRef present s
  | StartTimer b =>
      match starts (host s) with
      | env :: rest => startScanning env b (set_starts rest s)
      | [] => s
      end
  | Retry b =>
      match error (cells s) with
      | Some _ => startScanning (render s) b s
      | None => s
      end
  | Frame =>
      match frames (host s) with
      | (_, env) :: rest => scan_begin env (set_frames rest s)
      | [] => s
      end
  | Detected d now =>
      match detecting (host s) with
      | env :: rest => scan_resume env d now (set_detecting rest s)
      | [] => s
      end
  | Decoded id result now =>
      match lookup id (decoders (host s)) with
      | Some env => on_decode env result now s
      | None => s
      end
  | DeliveryTimer =>
      match deliveries (host s) with
      | code :: rest => deliver code (set_deliveries rest s)
      | [] => s
      end
  end.

Definition run (s : State) (trace : list Event) : State :=
  fold_left step trace s.



(** *** Shapes of call sequences and of events *)

(** Every [onDetected] in a sequence of calls has [onClose] as the very
    next call; [owed] says that the call before was an [onDetected]. *)
Fixpoint closes_follow (owed : bool) (cs : list Call) : bool :=
  match cs with
  | [] => negb owed
  | OnClose :: rest => closes_follow false rest
  | OnDetected _ :: rest => negb owed && closes_follow true rest
  end.

(** The calls one event makes: none but those of the 800 ms timer. *)
Definition produced (s : State) (e : Event) : list Call :=
  match e with
  | DeliveryTimer =>
      match deliveries (host s) with
      | code :: _ => [OnDetected code; OnClose]
      | [] => []
      end
  | _ => []
  end.

(** A start on which the camera is refused, by either back-end. *)
Definition refused_by (native throws : bool) (name message : string)
  : Backend :=
  if native then Native (Refused name message)
  else ZXing (Refused name message) throws.

(** The events that come from the host's queues, not from the parent
    or the user. *)
Definition from_host (e : Event) : bool :=
  match e with
  | Frame | Detected _ _ | Decoded _ _ _ | DeliveryTimer => true
  | _ => false
  end.

End Barcode.

(* ================================================================== *)
(** ** Properties of the camera *)
(* ================================================================== *)

Module CameraProofs.
Import JS.

(** A stopped track is no longer running. *)
Lemma stop_tracks_gone m running t :
  In t m -> ~ In t (stop_tracks m running).
Proof.
  unfold stop_tracks. rewrite filter_In. intros Hin (_ & Hneg).
  apply negb_true_iff in Hneg.
  assert (Hex : existsb (Nat.eqb t) m = true).
  { apply existsb_exists. exists t. split; [exact Hin|apply Nat.eqb_refl]. }
  congruence.
Qed.



End CameraProofs.

(* ================================================================== *)
(** ** Properties of the expiry-date dialog *)
(* ================================================================== *)

Module ExpiryProofs.
Import JS Expiry CameraProofs.

(** *** The pipeline as a filter *)

Lemma push_if_ok_fold newDate pattern ms found :
  fold_left (push_if_ok newDate pattern) ms found
  = (found ++ filter (date_ok newDate) (map (dateStr pattern) ms))%list.
Proof.
  revert found; induction ms as [|m ms IH]; intros found; simpl.
  - now rewrite app_nil_r.
  - rewrite IH. unfold push_if_ok.
    destruct (date_ok newDate (dateStr pattern m)); [|reflexivity].
    now rewrite <- app_assoc.
Qed.

(** Scan order: every day-first candidate before every year-first
    one, each pattern's candidates from left to right, the invalid
    ones dropped. *)
Lemma foundDates_filter newDate text :
  foundDates newDate text
  = filter (date_ok newDate)
      (candidates dmy_pattern text ++ candidates ymd_pattern text)%list.
Proof.
  unfold foundDates, datePatterns, scan_pattern, candidates; simpl.
  rewrite !push_if_ok_fold, filter_app. reflexivity.
Qed.


(** Only [foundDates[0]] ever reaches [onDetected]. *)
Lemma report_detected found d :
  In (OnDetected d) (report found) <-> hd_error found = Some d.
Proof.
  destruct found as [|a [|b rest]]; simpl; split;
    try (intros [H|[H|[H|[]]]]; congruence);
    try (intros [H|[]]; congruence);
    try discriminate;
    intros H; injection H as ->; now left.
Qed.


(** *** Settling a request *)

Lemma resume_calls newDate result s :
  calls (captureAndScan_resume newDate result s)
  = (calls s ++ match result with
                | Some text => report (foundDates newDate text)
                | None => [ShowToast ScanError]
                end)%list.
Proof. destruct result; reflexivity. Qed.

Lemma resume_isScanning newDate result s :
  isScanning (captureAndScan_resume newDate result s) = false.
Proof. reflexivity. Qed.

(** *** The format test *)

Lemma format_test_dmy : includes (source dmy_pattern) "(\d{4})" = true.
Proof. reflexivity. Qed.

Lemma format_test_ymd : includes (source ymd_pattern) "(\d{4})" = true.
Proof. reflexivity. Qed.

Lemma dateStr_year_first_branch pattern m :
  In pattern datePatterns ->
  dateStr pattern m
  = group m 1 ++ "-" ++ padStart (group m 2) 2 "0"
    ++ "-" ++ padStart (group m 3) 2 "0".
Proof.
  intros [<-|[<-|[]]]; unfold dateStr.
  - now rewrite format_test_dmy.
  - now rewrite format_test_ymd.
Qed.

(** C1 (the code departs from it).  The text [best before 31-12-2025]
    holds one day-month-year match and no year-month-day match; the
    match is assembled as [31-12-2025], in the order it was written,
    so whatever the host's [Date] makes of that string the dialog
    never hands [2025-12-31] to [onDetected]; on a host that accepts
    the ISO form only, nothing is found at all. *)
Theorem best_before_not_year_first :
  forall newDate,
    candidates dmy_pattern "best before 31-12-2025" = ["31-12-2025"]
    /\ candidates ymd_pattern "best before 31-12-2025" = []
    /\ ~ In (OnDetected "2025-12-31")
           (calls (run newDate initial
                     [SetOpen true (Some [1]); Click true true true;
                      Resolve "best before 31-12-2025"]))
    /\ calls (run strictDate initial
                [SetOpen true (Some [1]); Click true true true;
                 Resolve "best before 31-12-2025"])
       = [ShowToast NoValidDate].
Proof.
  intros newDate.
  assert (Hd : candidates dmy_pattern "best before 31-12-2025"
               = ["31-12-2025"]) by (vm_compute; reflexivity).
  assert (Hy : candidates ymd_pattern "best before 31-12-2025" = [])
    by (vm_compute; reflexivity).
  split; [exact Hd|]. split; [exact Hy|].
  split; [|vm_compute; reflexivity].
  unfold run; simpl fold_left.
  change (step newDate ?s (Resolve ?t))
    with (captureAndScan_resume newDate (Some t) s).
  rewrite resume_calls, foundDates_filter, Hd, Hy; simpl.
  destruct (date_ok newDate "31-12-2025"); simpl; intuition discriminate.
Qed.

(** C2 (the code departs from it).  In
    [exp 01/02/2030 also 2031-03-04] the day-first match comes first
    in scan order, but it is assembled as [01-02-2030], not as
    [2030-02-01]: on no host does [onDetected] receive [2030-02-01].
    A host that accepts the ISO form only delivers the later
    year-first match [2031-03-04]; a host with a month-day-year
    format of its own delivers the string [01-02-2030].  The scan
    order itself is [foundDates_filter]. *)
Theorem first_day_first_match_not_normalised :
  forall newDate,
    candidates dmy_pattern "exp 01/02/2030 also 2031-03-04" = ["01-02-2030"]
    /\ candidates ymd_pattern "exp 01/02/2030 also 2031-03-04"
       = ["2031-03-04"]
    /\ ~ In (OnDetected "2030-02-01")
           (report (foundDates newDate "exp 01/02/2030 also 2031-03-04"))
    /\ report (foundDates strictDate "exp 01/02/2030 also 2031-03-04")
       = [OnDetected "2031-03-04"; OnClose;
          ShowToast (DateScanned "2031-03-04")]
    /\ report (foundDates legacyDate "exp 01/02/2030 also 2031-03-04")
       = [OnDetected "01-02-2030"; OnClose;
          ShowToast (SeveralDates "01-02-2030")].
Proof.
  intros newDate.
  assert (Hd : candidates dmy_pattern "exp 01/02/2030 also 2031-03-04"
               = ["01-02-2030"]) by (vm_compute; reflexivity).
  assert (Hy : candidates ymd_pattern "exp 01/02/2030 also 2031-03-04"
               = ["2031-03-04"]) by (vm_compute; reflexivity).
  split; [exact Hd|]. split; [exact Hy|].
  split; [|split; vm_compute; reflexivity].
  rewrite report_detected, foundDates_filter, Hd, Hy; simpl.
  destruct (date_ok newDate "01-02-2030");
    destruct (date_ok newDate "2031-03-04"); simpl; discriminate.
Qed.


(** *** Closing while a request is pending *)

Lemma stopCamera_keeps c s :
  calls (stopCamera c s) = calls s
  /\ pending (stopCamera c s) = pending s
  /\ isScanning (stopCamera c s) = isScanning s.
Proof. destruct c; repeat split. Qed.

Lemma close_keeps answer s :
  calls (effect false answer s) = calls s
  /\ pending (effect false answer s) = pending s.
Proof.
  unfold effect; simpl.
  destruct (cleanup s) as [old|]; simpl.
  - destruct (stopCamera_keeps (stream s) (stopCamera old s)) as (-> & -> & _).
    destruct (stopCamera_keeps old s) as (-> & -> & _). now split.
  - destruct (stopCamera_keeps (stream s) s) as (-> & -> & _). now split.
Qed.

(** C5, as the code has it.  Closing the dialog stops the camera but
    does not touch a pending recognition request: when the request
    resolves, its text is processed as if the dialog were open, and
    the calls that follow are those of the outcome, [onDetected] with
    the first valid date and [onClose] whenever there is one. *)
Theorem close_does_not_cancel_recognition :
  forall newDate s answer text,
    open s = true ->
    (0 < pending s)%nat ->
    open (step newDate s (SetOpen false answer)) = false
    /\ calls (run newDate s [SetOpen false answer; Resolve text])
       = (calls s ++ report (foundDates newDate text))%list.
Proof.
  intros newDate s answer text Hopen Hpending.
  assert (E : step newDate s (SetOpen false answer) = effect false answer s).
  { unfold step. now rewrite Hopen. }
  unfold run; cbn [fold_left]. rewrite E. split; [reflexivity|].
  destruct (close_keeps answer s) as (Hc & Hp).
  cbn [step]. rewrite Hp. apply Nat.ltb_lt in Hpending. rewrite Hpending.
  rewrite resume_calls, Hc. reflexivity.
Qed.

Lemma close_does_not_cancel_recognition_witness :
  let s := run strictDate initial
             [SetOpen true (Some [1]); Click true true true] in
  open s = true /\ (0 < pending s)%nat
  /\ open (step strictDate s (SetOpen false None)) = false
  /\ calls (run strictDate s [SetOpen false None; Resolve "2031-03-04"])
     = (calls s ++ report (foundDates strictDate "2031-03-04"))%list.
Proof.
  intros s.
  assert (Ho : open s = true) by reflexivity.
  assert (Hp : (0 < pending s)%nat) by (vm_compute; lia).
  split; [exact Ho|]. split; [exact Hp|].
  exact (close_does_not_cancel_recognition
           strictDate s None "2031-03-04" Ho Hp).
Defined.

(** C5 as stated fails: the dialog is opened, a scan is started, the
    dialog is closed with the request pending, and the request then
    resolves with a text that holds one valid date; [onDetected] is
    invoked with it. *)
Lemma closed_dialog_still_delivers :
  let s := run strictDate initial
             [SetOpen true (Some [1]); Click true true true;
              SetOpen false None] in
  open s = false /\ pending s = 1%nat /\ calls s = []
  /\ calls (step strictDate s (Resolve "best before 2031-03-04"))
     = [OnDetected "2031-03-04"; OnClose;
        ShowToast (DateScanned "2031-03-04")].
Proof. vm_compute. repeat split. Qed.

(** C7 (the code departs from it).  A settled request always clears
    [isScanning], whether a date was found, none was, or recognition
    failed; but an attempt that gets no 2D context returns after
    [setIsScanning(true)] and before the [try]: [isScanning] stays
    set, no request is in flight that could clear it, and the scan
    button stays disabled. *)
Theorem no_context_leaves_isScanning_set :
  forall newDate,
    let s := run newDate initial
               [SetOpen true (Some [1]); Click true true false] in
    isScanning s = true /\ pending s = 0%nat /\ calls s = []
    /\ (forall video canvas ctx, step newDate s (Click video canvas ctx) = s)
    /\ (forall text, step newDate s (Resolve text) = s)
    /\ step newDate s Reject = s
    /\ (forall s' result,
           isScanning (captureAndScan_resume newDate result s') = false).
Proof.
  intros newDate s. repeat split.
Qed.

(** *** What a day-first match looks like *)

Lemma take_digits_length n : forall s d rest,
  take_digits n s = Some (d, rest) -> List.length d = n.
Proof.
  induction n as [|n IH]; intros s d rest; simpl.
  - intros [= <- _]. reflexivity.
  - destruct s as [|c s]; [discriminate|].
    destruct (is_digit c); [|discriminate].
    destruct (take_digits n s) as [[d' r']|] eqn:E; [|discriminate].
    intros [= <- _]. simpl. f_equal. eapply IH, E.
Qed.

(** The first capture of a bounded repetition has a length within its
    bounds, and the rest of the pattern matched after it. *)
Lemma greedy_capture k lo extra prev s caps rest :
  greedy k lo extra prev s = Some (caps, rest) ->
  exists d caps' s',
    caps = string_of_list_ascii d :: caps'
    /\ (lo <= List.length d <= lo + extra)%nat
    /\ k (last_char d prev) s' = Some (caps', rest).
Proof.
  induction extra as [|e IH]; simpl.
  - destruct (take_digits lo s) as [[d s']|] eqn:E; [|discriminate].
    destruct (k (last_char d prev) s') as [[caps' rest']|] eqn:K;
      [|discriminate].
    intros [= <- <-]. exists d, caps', s'.
    apply take_digits_length in E. repeat split; try lia. exact K.
  - destruct (take_digits (lo + S e) s) as [[d s']|] eqn:E.
    + destruct (k (last_char d prev) s') as [[caps' rest']|] eqn:K.
      * intros [= <- <-]. exists d, caps', s'.
        apply take_digits_length in E. repeat split; try lia. exact K.
      * intros H. destruct (IH H) as (d' & caps' & s'' & ? & ? & ?).
        exists d', caps', s''. repeat split; try assumption; lia.
    + intros H. destruct (IH H) as (d' & caps' & s'' & ? & ? & ?).
      exists d', caps', s''. repeat split; try assumption; lia.
Qed.

Lemma dmy_match_shape prev s caps rest :
  match_atoms (atoms dmy_pattern) prev s = Some (caps, rest) ->
  exists d tail,
    caps = string_of_list_ascii d :: tail
    /\ (1 <= List.length d <= 2)%nat.
Proof.
  cbn [atoms dmy_pattern match_atoms].
  destruct (at_boundary prev s); [|discriminate].
  intros H. apply greedy_capture in H as (d & caps' & s' & -> & Hlen & _).
  exists d, caps'. split; [reflexivity|]. simpl in Hlen. lia.
Qed.

(** Neither pattern matches at the end of the text, where [exec_all]
    stops looking. *)
Lemma no_match_at_end pattern prev :
  In pattern datePatterns -> match_atoms (atoms pattern) prev [] = None.
Proof.
  intros [<-|[<-|[]]]; cbn; now destruct (at_boundary prev []).
Qed.

(** Every array the [while] loop sees is a match of the pattern at
    some position of the text. *)
Lemma exec_all_In p m : forall s prev skip,
  In m (exec_all p prev s skip) ->
  exists prev' s' caps rest,
    match_atoms p prev' s' = Some (caps, rest)
    /\ m = match_array s' rest caps.
Proof.
  induction s as [|c s IH]; intros prev skip; simpl; [intros []|].
  destruct skip as [|k]; [|apply IH].
  destruct (match_atoms p prev (c :: s)) as [[caps rest]|] eqn:E.
  - intros [<-|H]; [|eapply IH, H].
    exists prev, (c :: s), caps, rest. now split.
  - apply IH.
Qed.

Lemma length_string_of_list_ascii d :
  String.length (string_of_list_ascii d) = List.length d.
Proof. induction d; simpl; congruence. Qed.

Lemma dmy_day_group text m :
  In m (matches dmy_pattern text) ->
  exists d, group m 1 = string_of_list_ascii d
            /\ (1 <= List.length d <= 2)%nat.
Proof.
  intros H. apply exec_all_In in H as (prev & s & caps & rest & Hm & ->).
  apply dmy_match_shape in Hm as (d & tail & -> & Hlen).
  exists d. now split.
Qed.

Lemma is_digit_dash : is_digit "-" = false.
Proof. reflexivity. Qed.

(** A day-first candidate has its first ['-'] where an ISO string
    still has digits of the year. *)
Lemma dmy_candidate_dash text c :
  In c (candidates dmy_pattern text) -> dash_in_year_position c = true.
Proof.
  unfold candidates. rewrite in_map_iff. intros (m & <- & Hm).
  rewrite dateStr_year_first_branch by (now left).
  destruct (dmy_day_group _ _ Hm) as (d & -> & Hlen).
  destruct d as [|a [|b [|c' d]]]; simpl in Hlen; try lia; simpl.
  - reflexivity.
  - apply orb_true_r.
Qed.

(** *** The strict host accepts year-first strings only *)

Lemma cut_split s : forall a r,
  cut s = (a, Some r) -> exists sep, s = a ++ String sep r.
Proof.
  induction s as [|c s IH]; intros a r; simpl; [discriminate|].
  destruct (code c =? 45)%nat.
  - intros [= <- <-]. now exists c.
  - destruct (cut s) as [a' b'] eqn:E. intros [= <- ->].
    destruct (IH a' r eq_refl) as (sep & ->). now exists sep.
Qed.

Lemma number_of_head acc c rest y :
  number_of acc (String c rest) = Some y ->
  is_digit c = true
  /\ number_of (10 * acc + Z.of_nat (code c - 48))%Z rest = Some y.
Proof. simpl. destruct (is_digit c); [now split|discriminate]. Qed.

Lemma strictDate_year_first s : strictDate s <> None -> year_first s = true.
Proof.
  unfold strictDate, iso_year, three_groups.
  destruct (cut s) as [a [r1|]] eqn:E1; [|congruence].
  destruct (cut r1) as [b [r2|]]; [|congruence].
  destruct (cut r2) as [c [r3|]]; [congruence|].
  destruct ((String.length a =? 4)%nat) eqn:La; [|simpl; congruence].
  cbn [andb].
  destruct ((String.length b =? 2) && (String.length c =? 2))%nat;
    [|congruence].
  destruct (number_of 0 a) as [y|] eqn:Na; [|congruence].
  intros _. apply cut_split in E1 as (sep & ->).
  apply Nat.eqb_eq in La.
  destruct a as [|a1 [|a2 [|a3 [|a4 [|a5 a]]]]]; try discriminate.
  apply number_of_head in Na as (D1 & Na).
  apply number_of_head in Na as (D2 & Na).
  apply number_of_head in Na as (D3 & Na).
  apply number_of_head in Na as (D4 & _).
  simpl. now rewrite D1, D2, D3, D4.
Qed.

Lemma filter_none {A} (f : A -> bool) l :
  (forall x, In x l -> f x = false) -> filter f l = [].
Proof.
  induction l as [|a l IH]; intros H; simpl; [reflexivity|].
  rewrite (H a) by (now left). apply IH. intros x Hx. apply H. now right.
Qed.

Lemma digit_not_dash c : is_digit c = true -> (code c =? 45)%nat = false.
Proof.
  unfold is_digit, between. intros H.
  apply andb_true_iff in H as [H _]. apply Nat.leb_le in H.
  apply Nat.eqb_neq. lia.
Qed.

Lemma year_first_no_dash s :
  year_first s = true -> dash_in_year_position s = false.
Proof.
  destruct s as [|a [|b [|c [|d s]]]]; simpl; try discriminate.
  intros H. apply andb_true_iff in H as [H _].
  apply andb_true_iff in H as [H Hc]. apply andb_true_iff in H as [_ Hb].
  now rewrite (digit_not_dash _ Hb), (digit_not_dash _ Hc).
Qed.

Lemma strictDate_rejects_dash s :
  dash_in_year_position s = true -> strictDate s = None.
Proof.
  intros H. destruct (strictDate s) as [y|] eqn:E; [|reflexivity].
  assert (Hy : year_first s = true)
    by (apply strictDate_year_first; congruence).
  apply year_first_no_dash in Hy. congruence.
Qed.

Lemma dmy_candidate_rejected newDate text c :
  (forall s, dash_in_year_position s = true -> newDate s = None) ->
  In c (candidates dmy_pattern text) -> date_ok newDate c = false.
Proof.
  intros Hstrict Hc. unfold date_ok.
  now rewrite (Hstrict c (dmy_candidate_dash _ _ Hc)).
Qed.

(** C10, as the code has it.  The format test holds for both
    patterns, so every match is assembled as match[1]-match[2]-match[3]
    with the last two padded; a day-first match therefore has its one
    or two digit day where the year belongs and is never assembled
    year-first.  Whether it is delivered is up to the host's [Date]:
    on a host that rejects a string whose second or third character is
    the dash, every found date comes from the year-first pattern. *)
Theorem day_first_match_assembled_as_written :
  includes (source dmy_pattern) "(\d{4})" = true
  /\ includes (source ymd_pattern) "(\d{4})" = true
  /\ (forall pattern m,
         In pattern datePatterns ->
         dateStr pattern m
         = group m 1 ++ "-" ++ padStart (group m 2) 2 "0"
           ++ "-" ++ padStart (group m 3) 2 "0")
  /\ (forall text m,
         In m (matches dmy_pattern text) ->
         (1 <= String.length (group m 1) <= 2)%nat
         /\ dash_in_year_position (dateStr dmy_pattern m) = true
         /\ year_first (dateStr dmy_pattern m) = false)
  /\ (forall newDate,
         (forall s, dash_in_year_position s = true -> newDate s = None) ->
         forall text,
           foundDates newDate text
           = filter (date_ok newDate) (candidates ymd_pattern text)).
Proof.
  split; [exact format_test_dmy|]. split; [exact format_test_ymd|].
  split; [exact dateStr_year_first_branch|]. split.
  - intros text m Hm.
    assert (Hd : dash_in_year_position (dateStr dmy_pattern m) = true).
    { apply (dmy_candidate_dash text). unfold candidates. now apply in_map. }
    split; [|split; [exact Hd|]].
    + destruct (dmy_day_group _ _ Hm) as (d & -> & Hlen).
      now rewrite length_string_of_list_ascii.
    + destruct (year_first (dateStr dmy_pattern m)) eqn:E; [|reflexivity].
      apply year_first_no_dash in E. congruence.
  - intros newDate Hstrict text.
    rewrite foundDates_filter, filter_app.
    rewrite (filter_none (date_ok newDate) (candidates dmy_pattern text)).
    + reflexivity.
    + intros c. now apply dmy_candidate_rejected.
Qed.

Lemma day_first_match_assembled_as_written_witness :
  (forall s, dash_in_year_position s = true -> strictDate s = None)
  /\ In ["01/02/2030"; "01"; "02"; "2030"]
        (matches dmy_pattern "exp 01/02/2030 also 2031-03-04")
  /\ In dmy_pattern datePatterns
  /\ dateStr dmy_pattern ["01/02/2030"; "01"; "02"; "2030"] = "01-02-2030"
  /\ dash_in_year_position "01-02-2030" = true
  /\ foundDates strictDate "exp 01/02/2030 also 2031-03-04"
     = filter (date_ok strictDate)
         (candidates ymd_pattern "exp 01/02/2030 also 2031-03-04").
Proof.
  destruct day_first_match_assembled_as_written
    as (_ & _ & Hbranch & Hshape & Hstrict).
  assert (Hm : In ["01/02/2030"; "01"; "02"; "2030"]
                 (matches dmy_pattern "exp 01/02/2030 also 2031-03-04"))
    by (vm_compute; now left).
  assert (Hp : In dmy_pattern datePatterns) by (now left).
  split; [exact strictDate_rejects_dash|]. split; [exact Hm|].
  split; [exact Hp|].
  split; [exact (Hbranch dmy_pattern _ Hp)|].
  split; [exact (proj1 (proj2 (Hshape _ _ Hm)))|].
  exact (Hstrict strictDate strictDate_rejects_dash
           "exp 01/02/2030 also 2031-03-04").
Defined.

(** C10 as stated fails: on a host whose [Date] reads [01-02-2030]
    as the second of January 2030, the day-first match of
    [exp 01/02/2030] passes the year test and is handed to
    [onDetected], although the text has no year-first match. *)
Lemma day_first_match_delivered_on_legacy_host :
  candidates dmy_pattern "exp 01/02/2030" = ["01-02-2030"]
  /\ candidates ymd_pattern "exp 01/02/2030" = []
  /\ legacyDate "01-02-2030" = Some 2030%Z
  /\ calls (run legacyDate initial
              [SetOpen true (Some [1]); Click true true true;
               Resolve "exp 01/02/2030"])
     = [OnDetected "01-02-2030"; OnClose;
        ShowToast (DateScanned "01-02-2030")].
Proof. vm_compute. repeat split. Qed.

(** *** Teardown of the camera *)




End ExpiryProofs.

(* ================================================================== *)
(** ** Properties of the barcode dialog *)
(* ================================================================== *)

Module BarcodeProofs.
Import JS Barcode CameraProofs.
Open Scope Z_scope.

(** *** The debounce test reads the closure, not the state *)

Lemma accept_ignores_state env code now t s :
  deliveries (host (accept env code now (setLastDetectionTime t s)))
  = deliveries (host (accept env code now s)).
Proof. unfold accept. now destruct (now - lastDetectionTime_c env >? 2000). Qed.

Lemma accept_after_accept env c1 c2 t1 t2 s :
  t1 - lastDetectionTime_c env > 2000 ->
  t1 <= t2 ->
  deliveries (host (accept env c2 t2 (accept env c1 t1 s)))
  = (deliveries (host s) ++ [c1; c2])%list.
Proof.
  intros H1 H12. unfold accept.
  assert (E1 : (t1 - lastDetectionTime_c env >? 2000) = true)
    by (apply Z.gtb_lt; lia).
  assert (E2 : (t2 - lastDetectionTime_c env >? 2000) = true)
    by (apply Z.gtb_lt; lia).
  rewrite E1, E2. simpl. now rewrite <- app_assoc.
Qed.

(** The first time the dialog opens, its closures hold the initial
    values of the state cells. *)
Lemma first_open_env :
  starts (host (run initial [SetOpen true]))
  = [{| scanning_c := false; lastDetectionTime_c := 0 |}].
Proof. reflexivity. Qed.

(** An iteration asks for the next frame exactly when the closure's
    [scanning] is set. *)
Lemma scan_resume_frames env d now s :
  frames (host (scan_resume env d now s))
  = if scanning_c env
    then (frames (host s) ++ [(next_id (host s), env)])%list
    else frames (host s).
Proof.
  unfold scan_resume.
  assert (A : forall c, frames (host (accept env c now s)) = frames (host s)
                        /\ next_id (host (accept env c now s))
                           = next_id (host s)).
  { intros c. unfold accept.
    now destruct (now - lastDetectionTime_c env >? 2000). }
  destruct d as [[|[v|] rest]|]; destruct (scanning_c env); simpl;
    try reflexivity;
    try (destruct (A v) as (-> & ->); reflexivity);
    try (destruct (A "") as (-> & ->); reflexivity);
    try (apply A).
Qed.

(** C3 (the code departs from it).  The dialog opens for the first
    time with the ZXing back-end; the decoder reports the same
    barcode twice, 500 ms apart.  Both results pass the debounce
    test, because the callback compares with the [lastDetectionTime]
    of the render that created it, which stays 0; two timers are set,
    and [onDetected] runs twice, the second time after the parent has
    closed the dialog. *)
Theorem two_results_two_deliveries :
  calls (run initial
           [SetOpen true; Video true;
            StartTimer (ZXing (Granted [1%nat]) false);
            Decoded 1 (Some "7290000000017") 1700000000000;
            Decoded 1 (Some "7290000000017") 1700000000500;
            DeliveryTimer; SetOpen false; DeliveryTimer])
  = [OnDetected "7290000000017"; OnClose;
     OnDetected "7290000000017"; OnClose].
Proof. vm_compute. reflexivity. Qed.

(** C4 (the code departs from it).  In the first session with the
    ZXing back-end a result at time T is accepted and the state cell
    becomes T; a second result 500 ms later is accepted as well and a
    second delivery is scheduled: the test subtracts the closure's
    [lastDetectionTime], 0, not the time of the last acceptance. *)
Theorem second_result_within_window_accepted :
  let s := run initial
             [SetOpen true; Video true;
              StartTimer (ZXing (Granted [1%nat]) false);
              Decoded 1 (Some "7290000000017") 1700000000000] in
  let s' := step s (Decoded 1 (Some "7290000000024") 1700000000500) in
  deliveries (host s) = ["7290000000017"]
  /\ lastDetectionTime (cells s) = 1700000000000
  /\ deliveries (host s') = ["7290000000017"; "7290000000024"]
  /\ lastDetectionTime (cells s') = 1700000000500.
Proof. vm_compute. repeat split. Qed.

(** C8 (the code departs from it).  The dialog opens for the first
    time with the native detector and the first frame shows no
    barcode, or its detection fails: the state is still scanning and
    the detector is still held, yet no frame is requested and no
    detection is in flight, because [scan] tests the [scanning] of
    the render that created it, which is false. *)
Theorem loop_ends_after_first_frame :
  let after d := run initial
                   [SetOpen true; Video true;
                    StartTimer (Native (Granted [1%nat]));
                    Frame; Detected d 1700000000000] in
  let idle s := scanning (cells s) = true
                /\ open (host s) = true
                /\ barcodeDetectorRef (refs s) = true
                /\ frames (host s) = []
                /\ detecting (host s) = []
                /\ deliveries (host s) = []
                /\ step s Frame = s in
  idle (after (Barcodes [])) /\ idle (after DetectFailed).
Proof. vm_compute. repeat split. Qed.

(** *** Teardown *)


End BarcodeProofs.

(* ================================================================== *)
(** ** Teardown of both dialogs *)
(* ================================================================== *)




(* ================================================================== *)
(** ** More on the expiry-date dialog *)
(* ================================================================== *)

Module ExpiryMore.
Import JS Expiry CameraProofs ExpiryProofs.

(** *** Texts without a date *)

Lemma match_needs_digit pattern prev c s :
  In pattern datePatterns ->
  is_digit c = false ->
  match_atoms (atoms pattern) prev (c :: s) = None.
Proof.
  intros [<-|[<-|[]]] Hc; cbn;
    destruct (at_boundary prev (c :: s)); cbn; rewrite ?Hc; reflexivity.
Qed.

Lemma exec_all_no_digit pattern :
  In pattern datePatterns ->
  forall text prev skip,
    no_digit text = true ->
    exec_all (atoms pattern) prev (list_ascii_of_string text) skip = [].
Proof.
  intros Hp. induction text as [|c text IH]; intros prev skip H; simpl;
    [reflexivity|].
  simpl in H. apply andb_true_iff in H as [Hc H].
  apply negb_true_iff in Hc.
  destruct skip as [|k]; [|now apply IH].
  rewrite (match_needs_digit _ _ _ _ Hp Hc). now apply IH.
Qed.

(** X1.  A recognized text without a single digit, the empty text
    included, holds no match of either pattern: no date is found on any
    host, and settling the request shows the toast for no valid date
    and calls neither [onDetected] nor [onClose]. *)
Theorem text_without_digits_finds_nothing :
  forall newDate text s,
    no_digit text = true ->
    (0 < pending s)%nat ->
    matches dmy_pattern text = []
    /\ matches ymd_pattern text = []
    /\ foundDates newDate text = []
    /\ calls (step newDate s (Resolve text))
       = (calls s ++ [ShowToast NoValidDate])%list.
Proof.
  intros newDate text s Htext Hp.
  assert (Hd : matches dmy_pattern text = [])
    by (apply exec_all_no_digit; [now left|exact Htext]).
  assert (Hy : matches ymd_pattern text = [])
    by (apply exec_all_no_digit; [right; now left|exact Htext]).
  assert (Hf : foundDates newDate text = []).
  { rewrite foundDates_filter. unfold candidates. now rewrite Hd, Hy. }
  repeat split; try assumption.
  cbn [step]. apply Nat.ltb_lt in Hp. rewrite Hp.
  now rewrite resume_calls, Hf.
Qed.

Lemma text_without_digits_finds_nothing_witness :
  let s := run strictDate initial
             [SetOpen true (Some [1]); Click true true true] in
  no_digit "best before: see lid" = true
  /\ (0 < pending s)%nat
  /\ calls (step strictDate s (Resolve "best before: see lid"))
     = (calls s ++ [ShowToast NoValidDate])%list.
Proof.
  intros s.
  assert (Ht : no_digit "best before: see lid" = true) by reflexivity.
  assert (Hp : (0 < pending s)%nat) by (vm_compute; lia).
  split; [exact Ht|]. split; [exact Hp|].
  exact (proj2 (proj2 (proj2
    (text_without_digits_finds_nothing strictDate _ s Ht Hp)))).
Defined.

(** *** Which date is delivered *)

Lemma hd_filter_split {A} (f : A -> bool) l d :
  hd_error (filter f l) = Some d <->
  exists before after,
    l = (before ++ d :: after)%list
    /\ f d = true
    /\ forallb (fun x => negb (f x)) before = true.
Proof.
  induction l as [|a l IH]; simpl.
  - split; [discriminate|].
    intros (before & after & H & _). now destruct before.
  - destruct (f a) eqn:Fa; simpl.
    + split.
      * intros [= <-]. exists [], l. now repeat split.
      * intros ([|b before] & after & H & Fd & Hb); simpl in H.
        -- now injection H as <- _.
        -- injection H as <- _. simpl in Hb. rewrite Fa in Hb. discriminate.
    + rewrite IH. split.
      * intros (before & after & -> & Fd & Hb).
        exists (a :: before), after. simpl. rewrite Fa. now repeat split.
      * intros ([|b before] & after & H & Fd & Hb); simpl in H.
        -- injection H as <- _. congruence.
        -- injection H as <- ->. simpl in Hb.
           apply andb_true_iff in Hb as [_ Hb].
           exists before, after. now repeat split.
Qed.

(** X2.  [onDetected] receives a date exactly when that date is the
    first candidate, in the order day-first matches then year-first
    matches, each from left to right, that the validity test accepts:
    every candidate before it was rejected. *)
Theorem delivered_is_first_valid_candidate :
  forall newDate text d,
    In (OnDetected d) (report (foundDates newDate text)) <->
    exists before after,
      (candidates dmy_pattern text ++ candidates ymd_pattern text
       = before ++ d :: after)%list
      /\ date_ok newDate d = true
      /\ forallb (fun x => negb (date_ok newDate x)) before = true.
Proof.
  intros newDate text d.
  rewrite report_detected, foundDates_filter. apply hd_filter_split.
Qed.

(** *** Year-first matches *)

Lemma take_digits_digits n : forall s d rest,
  take_digits n s = Some (d, rest) -> forallb is_digit d = true.
Proof.
  induction n as [|n IH]; intros s d rest; simpl.
  - now intros [= <- _].
  - destruct s as [|c s]; [discriminate|].
    destruct (is_digit c) eqn:Hc; [|discriminate].
    destruct (take_digits n s) as [[d' r']|] eqn:E; [|discriminate].
    intros [= <- _]. simpl. rewrite Hc. eapply IH, E.
Qed.

(** As [greedy_capture], with the capture made of digits. *)
Lemma greedy_digits k lo extra prev s caps rest :
  greedy k lo extra prev s = Some (caps, rest) ->
  exists d caps' s',
    caps = string_of_list_ascii d :: caps'
    /\ (lo <= List.length d <= lo + extra)%nat
    /\ forallb is_digit d = true
    /\ k (last_char d prev) s' = Some (caps', rest).
Proof.
  induction extra as [|e IH]; simpl.
  - destruct (take_digits lo s) as [[d s']|] eqn:E; [|discriminate].
    destruct (k (last_char d prev) s') as [[caps' rest']|] eqn:K;
      [|discriminate].
    intros [= <- <-]. exists d, caps', s'.
    pose proof (take_digits_length _ _ _ _ E).
    pose proof (take_digits_digits _ _ _ _ E).
    repeat split; try lia; assumption.
  - destruct (take_digits (lo + S e) s) as [[d s']|] eqn:E.
    + destruct (k (last_char d prev) s') as [[caps' rest']|] eqn:K.
      * intros [= <- <-]. exists d, caps', s'.
        pose proof (take_digits_length _ _ _ _ E).
        pose proof (take_digits_digits _ _ _ _ E).
        repeat split; try lia; assumption.
      * intros H. destruct (IH H) as (d' & caps' & s'' & ? & ? & ? & ?).
        exists d', caps', s''. repeat split; try assumption; lia.
    + intros H. destruct (IH H) as (d' & caps' & s'' & ? & ? & ? & ?).
      exists d', caps', s''. repeat split; try assumption; lia.
Qed.

Lemma ymd_match_shape prev s caps rest :
  match_atoms (atoms ymd_pattern) prev s = Some (caps, rest) ->
  exists y m d,
    caps = [string_of_list_ascii y; string_of_list_ascii m;
            string_of_list_ascii d]
    /\ List.length y = 4%nat
    /\ (1 <= List.length m <= 2)%nat
    /\ (1 <= List.length d <= 2)%nat
    /\ forallb is_digit y = true
    /\ forallb is_digit m = true
    /\ forallb is_digit d = true.
Proof.
  cbn [atoms ymd_pattern match_atoms].
  destruct (at_boundary prev s); [|discriminate].
  intros H. apply greedy_digits in H as (y & c1 & s1 & -> & Ly & Dy & H).
  destruct s1 as [|x1 s1]; [discriminate|].
  destruct (is_sep x1); [|discriminate].
  apply greedy_digits in H as (m & c2 & s2 & -> & Lm & Dm & H).
  destruct s2 as [|x2 s2]; [discriminate|].
  destruct (is_sep x2); [|discriminate].
  apply greedy_digits in H as (d & c3 & s3 & -> & Ld & Dd & H).
  destruct (at_boundary _ s3); [|discriminate].
  injection H as <- _.
  exists y, m, d. simpl in Ly, Lm, Ld. repeat split; try lia; assumption.
Qed.

Lemma is_digit_zero : is_digit "0" = true.
Proof. reflexivity. Qed.

(** X3.  Whatever separators the text uses and whether or not month and
    day are written with two digits, every candidate of the year-first
    pattern has the ISO form: four digits, dash, two digits, dash, two
    digits. *)
Theorem year_first_candidates_are_iso :
  forall text c,
    In c (candidates ymd_pattern text) -> iso_shape c = true.
Proof.
  intros text c. unfold candidates. rewrite in_map_iff.
  intros (m & <- & Hm).
  rewrite dateStr_year_first_branch by (right; now left).
  apply exec_all_In in Hm as (prev & s & caps & rest & Hm & ->).
  apply ymd_match_shape in Hm
    as (y & mo & d & -> & Ly & Lm & Ld & Dy & Dm & Dd).
  destruct y as [|y1 [|y2 [|y3 [|y4 [|y5 y]]]]]; simpl in Ly; try lia.
  simpl in Dy.
  apply andb_true_iff in Dy as [Y1 Dy]. apply andb_true_iff in Dy as [Y2 Dy].
  apply andb_true_iff in Dy as [Y3 Dy]. apply andb_true_iff in Dy as [Y4 _].
  destruct mo as [|m1 [|m2 [|m3 mo]]]; simpl in Lm; try lia;
    destruct d as [|d1 [|d2 [|d3 d]]]; simpl in Ld; try lia;
    simpl in Dm, Dd;
    repeat match goal with
           | H : _ && _ = true |- _ => apply andb_true_iff in H as [? ?]
           end;
    unfold iso_shape; cbn;
    repeat match goal with
           | H : is_digit _ = true |- _ => rewrite H
           end;
    reflexivity.
Qed.

Lemma year_first_candidates_are_iso_witness :
  In "2031-03-04" (candidates ymd_pattern "exp 2031/3.4")
  /\ iso_shape "2031-03-04" = true.
Proof.
  assert (H : In "2031-03-04" (candidates ymd_pattern "exp 2031/3.4"))
    by (vm_compute; now left).
  split; [exact H|].
  exact (year_first_candidates_are_iso "exp 2031/3.4" "2031-03-04" H).
Defined.

(** *** A year-first date on its own *)

Lemma digit_is_word c : is_digit c = true -> is_word c = true.
Proof. unfold is_word. intros ->. now rewrite orb_true_r. Qed.

Lemma digit_not_sep c : is_digit c = true -> is_sep c = false.
Proof.
  unfold is_digit, is_sep, between. intros H.
  apply andb_true_iff in H as [H _]. apply Nat.leb_le in H.
  repeat rewrite (proj2 (Nat.eqb_neq _ _)) by lia. reflexivity.
Qed.

Lemma sep_cases c :
  is_sep c = true -> (code c = 47 \/ code c = 45 \/ code c = 46)%nat.
Proof.
  unfold is_sep. intros H.
  apply orb_true_iff in H as [H|H]; [apply orb_true_iff in H as [H|H]|];
    apply Nat.eqb_eq in H; auto.
Qed.

Lemma sep_not_digit c : is_sep c = true -> is_digit c = false.
Proof.
  intros H. apply sep_cases in H. unfold is_digit, between.
  destruct H as [H|[H|H]]; rewrite H; reflexivity.
Qed.

Lemma sep_not_word c : is_sep c = true -> is_word c = false.
Proof.
  intros H. pose proof (sep_not_digit _ H) as Hd.
  apply sep_cases in H. unfold is_word, between. rewrite Hd.
  destruct H as [H|[H|H]]; rewrite H; reflexivity.
Qed.

Ltac char_facts :=
  repeat match goal with
         | H : is_digit ?c = true |- _ =>
             lazymatch goal with
             | _ : is_word c = true |- _ => fail
             | _ => pose proof (digit_is_word _ H);
                    pose proof (digit_not_sep _ H)
             end
         | H : is_sep ?c = true |- _ =>
             lazymatch goal with
             | _ : is_word c = false |- _ => fail
             | _ => pose proof (sep_not_word _ H);
                    pose proof (sep_not_digit _ H)
             end
         end.

Lemma exec_all_try p prev c s :
  exec_all p prev (c :: s) 0
  = match match_atoms p prev (c :: s) with
    | Some (caps, rest) =>
        match_array (c :: s) rest caps
        :: exec_all p (Some c) s (List.length (c :: s) - List.length rest - 1)
    | None => exec_all p (Some c) s 0
    end.
Proof. reflexivity. Qed.

Lemma exec_all_skip p prev c s k :
  exec_all p prev (c :: s) (S k) = exec_all p (Some c) s k.
Proof. reflexivity. Qed.

Ltac use_facts :=
  repeat match goal with
         | H : is_digit _ = _ |- _ => rewrite H
         | H : is_word _ = _ |- _ => rewrite H
         | H : is_sep _ = _ |- _ => rewrite H
         end.

(** One attempt of a pattern at one position, on characters known by
    their classes only. *)
Ltac one_match :=
  unfold dmy_pattern, ymd_pattern, atoms;
  repeat (progress (cbn -[is_digit is_word is_sep at_boundary];
                    unfold at_boundary, opt_word, hd_error;
                    cbn -[is_digit is_word is_sep];
                    use_facts)).

Ltac no_match_here :=
  rewrite exec_all_try;
  match goal with
  | |- context [match_atoms ?p ?prev ?l] =>
      let H := fresh "Hnone" in
      assert (H : match_atoms p prev l = None) by (one_match; reflexivity);
      rewrite H; clear H
  end.

(** X4.  A text that is one year-first date, written with two-digit
    month and day and any two of the separators, has no day-first
    match and one year-first match, assembled with both separators
    replaced by dashes; it is found exactly when the host's [Date]
    accepts that ISO string. *)
Theorem year_first_date_alone_is_normalised :
  forall y1 y2 y3 y4 s1 m1 m2 s2 d1 d2,
    is_digit y1 = true -> is_digit y2 = true ->
    is_digit y3 = true -> is_digit y4 = true ->
    is_digit m1 = true -> is_digit m2 = true ->
    is_digit d1 = true -> is_digit d2 = true ->
    is_sep s1 = true -> is_sep s2 = true ->
    let text :=
      string_of_list_ascii [y1; y2; y3; y4; s1; m1; m2; s2; d1; d2] in
    let iso :=
      string_of_list_ascii
        [y1; y2; y3; y4; "-"%char; m1; m2; "-"%char; d1; d2] in
    candidates dmy_pattern text = []
    /\ candidates ymd_pattern text = [iso]
    /\ forall newDate,
         foundDates newDate text = if date_ok newDate iso then [iso] else [].
Proof.
  intros y1 y2 y3 y4 s1 m1 m2 s2 d1 d2 Y1 Y2 Y3 Y4 M1 M2 D1 D2 S1 S2
         text iso.
  char_facts.
  assert (Hd : candidates dmy_pattern text = []).
  { unfold candidates, matches, text.
    change (list_ascii_of_string (string_of_list_ascii ?l)) with l.
    do 10 no_match_here. reflexivity. }
  assert (Hy : candidates ymd_pattern text = [iso]).
  { unfold candidates, matches, text.
    change (list_ascii_of_string (string_of_list_ascii ?l)) with l.
    rewrite exec_all_try.
    match goal with
    | |- context [match_atoms ?p ?prev ?l] =>
        assert (Hm : match_atoms p prev l
                     = Some ([string_of_list_ascii [y1; y2; y3; y4];
                              string_of_list_ascii [m1; m2];
                              string_of_list_ascii [d1; d2]], []))
          by (one_match; reflexivity)
    end.
    rewrite Hm. cbn [List.length Nat.sub].
    rewrite !exec_all_skip.
    unfold iso, dateStr. rewrite format_test_ymd. reflexivity. }
  split; [exact Hd|]. split; [exact Hy|].
  intros newDate. rewrite foundDates_filter, Hd, Hy. reflexivity.
Qed.

Lemma year_first_date_alone_is_normalised_witness :
  candidates dmy_pattern "2031/03.04" = []
  /\ candidates ymd_pattern "2031/03.04" = ["2031-03-04"]
  /\ forall newDate,
       foundDates newDate "2031/03.04"
       = if date_ok newDate "2031-03-04" then ["2031-03-04"] else [].
Proof.
  exact (year_first_date_alone_is_normalised
           "2" "0" "3" "1" "/" "0" "3" "." "0" "4"
           eq_refl eq_refl eq_refl eq_refl eq_refl eq_refl eq_refl eq_refl
           eq_refl eq_refl).
Defined.

(** X16.  A text that is one year-first date with a one-digit month
    and a one-digit day has one year-first match, assembled with both
    padded with a zero and both separators replaced by dashes, and no
    day-first match. *)
Theorem short_month_and_day_are_padded :
  forall y1 y2 y3 y4 s1 m s2 d,
    is_digit y1 = true -> is_digit y2 = true ->
    is_digit y3 = true -> is_digit y4 = true ->
    is_digit m = true -> is_digit d = true ->
    is_sep s1 = true -> is_sep s2 = true ->
    let text := string_of_list_ascii [y1; y2; y3; y4; s1; m; s2; d] in
    let iso :=
      string_of_list_ascii
        [y1; y2; y3; y4; "-"%char; "0"%char; m; "-"%char; "0"%char; d] in
    candidates dmy_pattern text = []
    /\ candidates ymd_pattern text = [iso]
    /\ iso_shape iso = true.
Proof.
  intros y1 y2 y3 y4 s1 m s2 d Y1 Y2 Y3 Y4 M D S1 S2 text iso.
  char_facts.
  assert (Hy : candidates ymd_pattern text = [iso]).
  { unfold candidates, matches, text.
    change (list_ascii_of_string (string_of_list_ascii ?l)) with l.
    rewrite exec_all_try.
    match goal with
    | |- context [match_atoms ?p ?prev ?l] =>
        assert (Hm : match_atoms p prev l
                     = Some ([string_of_list_ascii [y1; y2; y3; y4];
                              string_of_list_ascii [m];
                              string_of_list_ascii [d]], []))
          by (one_match; reflexivity)
    end.
    rewrite Hm. cbn [List.length Nat.sub].
    rewrite !exec_all_skip.
    unfold iso, dateStr. rewrite format_test_ymd. reflexivity. }
  split; [|split; [exact Hy|]].
  - unfold candidates, matches, text.
    change (list_ascii_of_string (string_of_list_ascii ?l)) with l.
    do 8 no_match_here. reflexivity.
  - apply (year_first_candidates_are_iso text). rewrite Hy. now left.
Qed.

Lemma short_month_and_day_are_padded_witness :
  candidates dmy_pattern "2031.3/4" = []
  /\ candidates ymd_pattern "2031.3/4" = ["2031-03-04"]
  /\ iso_shape "2031-03-04" = true.
Proof.
  exact (short_month_and_day_are_padded
           "2" "0" "3" "1" "." "3" "/" "4"
           eq_refl eq_refl eq_refl eq_refl eq_refl eq_refl eq_refl eq_refl).
Defined.

(** X17.  A date written day first with a two-digit year, as in
    [31/12/25], is matched by neither pattern: both ask for four digits
    of year.  No date is found on any host. *)
Theorem two_digit_year_is_not_matched :
  forall d1 d2 s1 m1 m2 s2 y1 y2,
    is_digit d1 = true -> is_digit d2 = true ->
    is_digit m1 = true -> is_digit m2 = true ->
    is_digit y1 = true -> is_digit y2 = true ->
    is_sep s1 = true -> is_sep s2 = true ->
    let text := string_of_list_ascii [d1; d2; s1; m1; m2; s2; y1; y2] in
    matches dmy_pattern text = []
    /\ matches ymd_pattern text = []
    /\ forall newDate, report (foundDates newDate text)
                       = [ShowToast NoValidDate].
Proof.
  intros d1 d2 s1 m1 m2 s2 y1 y2 D1 D2 M1 M2 Y1 Y2 S1 S2 text.
  char_facts.
  assert (Hd : matches dmy_pattern text = []).
  { unfold matches, text.
    change (list_ascii_of_string (string_of_list_ascii ?l)) with l.
    do 8 no_match_here. reflexivity. }
  assert (Hy : matches ymd_pattern text = []).
  { unfold matches, text.
    change (list_ascii_of_string (string_of_list_ascii ?l)) with l.
    do 8 no_match_here. reflexivity. }
  split; [exact Hd|]. split; [exact Hy|].
  intros newDate. rewrite foundDates_filter. unfold candidates.
  now rewrite Hd, Hy.
Qed.

Lemma two_digit_year_is_not_matched_witness :
  matches dmy_pattern "31/12/25" = []
  /\ matches ymd_pattern "31/12/25" = []
  /\ forall newDate, report (foundDates newDate "31/12/25")
                     = [ShowToast NoValidDate].
Proof.
  exact (two_digit_year_is_not_matched
           "3" "1" "/" "1" "2" "/" "2" "5"
           eq_refl eq_refl eq_refl eq_refl eq_refl eq_refl eq_refl eq_refl).
Defined.

(** *** What every run of the dialog keeps *)

(** An invariant of [step] holds after every trace. *)
Lemma run_invariant newDate (P : State -> Prop) :
  (forall s e, P s -> P (step newDate s e)) ->
  forall trace s, P s -> P (run newDate s trace).
Proof.
  intros Hstep. induction trace as [|e trace IH]; intros s Hs; simpl.
  - exact Hs.
  - apply IH, Hstep, Hs.
Qed.

Lemma stopCamera_one_request c s :
  one_request s -> one_request (stopCamera c s).
Proof. destruct c; exact (fun H => H). Qed.

Lemma step_one_request newDate s e :
  one_request s -> one_request (step newDate s e).
Proof.
  intros H. destruct e as [o answer| |video canvas ctx|text|]; cbn [step].
  - destruct (Bool.eqb o (open s)); [exact H|].
    unfold effect.
    destruct (cleanup s) as [old|]; destruct o;
      try destruct answer as [m|]; try destruct old as [m'|];
      try destruct (stream s) as [m''|]; exact H.
  - unfold unmount. destruct (cleanup s) as [[m|]|]; exact H.
  - destruct (stream s) as [m|]; [|exact H].
    destruct (isScanning s) eqn:Hs; [exact H|].
    unfold captureAndScan_begin.
    destruct (negb video || negb canvas); [exact H|].
    destruct H as [H|[_ H]]; [|simpl in *; congruence].
    destruct (negb ctx); unfold one_request; simpl.
    + now left.
    + right. now rewrite H.
  - destruct (0 <? pending s)%nat eqn:Hp; [|exact H].
    apply Nat.ltb_lt in Hp. destruct H as [H|[H _]]; [lia|].
    left. simpl. now rewrite H.
  - destruct (0 <? pending s)%nat eqn:Hp; [|exact H].
    apply Nat.ltb_lt in Hp. destruct H as [H|[H _]]; [lia|].
    left. simpl. now rewrite H.
Qed.

(** X5.  Whatever the parent, the user and the recognizer do, at most
    one recognition request is in flight, and while one is in flight
    [isScanning] is set: the scan button is disabled until the request
    settles. *)
Theorem at_most_one_request_in_flight :
  forall newDate trace,
    let s := run newDate initial trace in
    pending s = 0%nat \/ (pending s = 1%nat /\ isScanning s = true).
Proof.
  intros newDate trace.
  apply (run_invariant newDate one_request).
  - intros s e. apply step_one_request.
  - now left.
Qed.

(** X6.  When the parent closes an open dialog that holds a stream,
    every track of that stream is stopped and the handle is cleared,
    whatever cleanup was registered before. *)
Theorem closing_stops_the_camera :
  forall newDate s m answer,
    open s = true ->
    stream s = Some m ->
    let s' := step newDate s (SetOpen false answer) in
    open s' = false
    /\ stream s' = None
    /\ Forall (fun t => ~ In t (live s')) m.
Proof.
  intros newDate s m answer Ho Hs. cbn [step]. rewrite Ho. cbn [Bool.eqb].
  unfold effect. rewrite Hs.
  split; [reflexivity|]. split; [reflexivity|].
  apply Forall_forall. intros t Ht. simpl. now apply stop_tracks_gone.
Qed.

Lemma closing_stops_the_camera_witness :
  let s := run strictDate initial [SetOpen true (Some [1; 2])] in
  let s' := step strictDate s (SetOpen false None) in
  open s = true /\ stream s = Some [1; 2]
  /\ open s' = false /\ stream s' = None
  /\ Forall (fun t => ~ In t (live s')) [1; 2].
Proof.
  intros s s'.
  assert (Ho : open s = true) by reflexivity.
  assert (Hs : stream s = Some [1; 2]) by reflexivity.
  split; [exact Ho|]. split; [exact Hs|].
  exact (closing_stops_the_camera strictDate s [1; 2] None Ho Hs).
Defined.

(** X7.  The cleanup registered when the dialog opens closed over the
    [stream] of that render, which was null: when the component is
    unmounted while open, the cleanup stops nothing, and every track of
    the stream the camera gave stays running. *)
Theorem unmount_while_open_leaves_camera_running :
  forall newDate s m,
    open s = false ->
    stream s = None ->
    let s' := run newDate s [SetOpen true (Some m); Unmount] in
    stream s' = Some m
    /\ incl m (live s').
Proof.
  intros newDate s m Ho Hs. unfold run; cbn [fold_left step].
  rewrite Ho. cbn [Bool.eqb]. unfold effect. rewrite Hs.
  destruct (cleanup s) as [[old|]|]; simpl; split; try reflexivity;
    intros t Ht; apply in_or_app; now right.
Qed.

Lemma unmount_while_open_leaves_camera_running_witness :
  open initial = false /\ stream initial = None
  /\ stream (run strictDate initial [SetOpen true (Some [1; 2]); Unmount])
     = Some [1; 2]
  /\ incl [1; 2]
       (live (run strictDate initial [SetOpen true (Some [1; 2]); Unmount])).
Proof.
  split; [reflexivity|]. split; [reflexivity|].
  exact (unmount_while_open_leaves_camera_running
           strictDate initial [1; 2] eq_refl eq_refl).
Defined.

(** *** The order of the calls *)

Lemma closes_follow_app owed a b :
  closes_follow owed a = true ->
  closes_follow false b = true ->
  closes_follow owed (a ++ b) = true.
Proof.
  revert owed. induction a as [|c a IH]; intros owed Ha Hb; simpl in *.
  - destruct owed; [discriminate|exact Hb].
  - destruct c; try (apply andb_true_iff in Ha as [-> Ha]; simpl);
      now apply IH.
Qed.

Lemma report_closes_follow found : closes_follow false (report found) = true.
Proof. destruct found as [|a [|b rest]]; reflexivity. Qed.

Lemma stopCamera_calls c s : calls (stopCamera c s) = calls s.
Proof. now destruct c. Qed.

Lemma step_closes_follow newDate s e :
  closes_follow false (calls s) = true ->
  closes_follow false (calls (step newDate s e)) = true.
Proof.
  intros H. destruct e as [o answer| |video canvas ctx|text|]; cbn [step].
  - destruct (Bool.eqb o (open s)); [exact H|].
    unfold effect. destruct o; simpl.
    + destruct answer as [m|]; simpl.
      * destruct (cleanup s) as [old|]; simpl;
          now rewrite ?stopCamera_calls.
      * apply closes_follow_app; [|reflexivity].
        destruct (cleanup s) as [old|]; now rewrite ?stopCamera_calls.
    + rewrite stopCamera_calls.
      destruct (cleanup s) as [old|]; now rewrite ?stopCamera_calls.
  - unfold unmount. destruct (cleanup s) as [old|]; simpl;
      now rewrite ?stopCamera_calls.
  - destruct (stream s) as [m|]; [|exact H].
    destruct (isScanning s); [exact H|].
    unfold captureAndScan_begin.
    destruct (negb video || negb canvas); [exact H|].
    now destruct (negb ctx).
  - destruct (0 <? pending s)%nat; [|exact H].
    rewrite resume_calls. apply closes_follow_app; [exact H|].
    apply report_closes_follow.
  - destruct (0 <? pending s)%nat; [|exact H].
    rewrite resume_calls. now apply closes_follow_app.
Qed.

(** X8.  In every run of the expiry-date dialog each call of
    [onDetected] has [onClose] as the very next call of the component,
    before any toast and before anything else. *)
Theorem expiry_detected_then_closed :
  forall newDate trace,
    closes_follow false (calls (run newDate initial trace)) = true.
Proof.
  intros newDate trace.
  apply (run_invariant newDate
           (fun s => closes_follow false (calls s) = true)).
  - intros s e. apply step_closes_follow.
  - reflexivity.
Qed.

End ExpiryMore.

(* ================================================================== *)
(** ** More on the barcode dialog *)
(* ================================================================== *)

Module BarcodeMore.
Import JS Barcode CameraProofs BarcodeProofs.
Open Scope Z_scope.

(** *** The calls of one step *)

Lemma stopped_calls s : calls (stopped s) = calls s.
Proof.
  destruct s as [c [sr bd ar vr st cr] h cs].
  unfold stopped, stopScanning; cbn.
  destruct ar as [[|id]|]; destruct bd; destruct cr as [[ci cm [|]]|];
    destruct sr; destruct st; reflexivity.
Qed.

Lemma accept_calls env code now s : calls (accept env code now s) = calls s.
Proof. unfold accept. now destruct (now - lastDetectionTime_c env >? 2000). Qed.


Lemma startScanning_calls env b s : calls (startScanning env b s) = calls s.
Proof.
  unfold startScanning. cbn.
  destruct (negb (videoRef (refs s))); [reflexivity|].
  destruct b as [[m|n msg]|[m|n msg] t]; reflexivity.
Qed.

Lemma calls_with_host f s : calls (with_host f s) = calls s.
Proof. reflexivity. Qed.
Lemma calls_with_refs f s : calls (with_refs f s) = calls s.
Proof. reflexivity. Qed.
Lemma calls_with_cells f s : calls (with_cells f s) = calls s.
Proof. reflexivity. Qed.

Ltac fold_updates :=
  unfold set_open, set_cleanup, set_live, set_next_id, set_frames,
    set_detecting, set_decoders, set_starts, set_deliveries,
    set_scannerRef, set_barcodeDetectorRef, set_animationRef, set_videoRef,
    set_streamRef, set_controlsRef,
    setScanning, setError, setSuccess, setLastDetectionTime.

Ltac calls_unchanged :=
  fold_updates;
  rewrite ?calls_with_host, ?calls_with_refs, ?calls_with_cells.

Lemma effect_calls o s : calls (effect o s) = calls s.
Proof.
  unfold effect. destruct (cleanup (host s)); destruct o;
    calls_unchanged; now rewrite ?stopped_calls.
Qed.

Lemma scan_begin_calls env s : calls (scan_begin env s) = calls s.
Proof.
  unfold scan_begin.
  destruct (negb (barcodeDetectorRef (refs s)) || negb (videoRef (refs s)));
    now calls_unchanged.
Qed.

Lemma request_frame_calls env s : calls (request_frame env s) = calls s.
Proof. unfold request_frame. now calls_unchanged. Qed.

Lemma scan_resume_calls env d now s : calls (scan_resume env d now s) = calls s.
Proof.
  unfold scan_resume.
  destruct d as [[|[v|] more]|]; destruct (scanning_c env);
    now rewrite ?request_frame_calls, ?accept_calls.
Qed.

Lemma on_decode_calls env r now s : calls (on_decode env r now s) = calls s.
Proof. destruct r; cbn [on_decode]; now rewrite ?accept_calls. Qed.

Lemma deliver_calls code s :
  calls (deliver code s) = (calls s ++ [OnDetected code; OnClose])%list.
Proof. unfold deliver, emit; cbn [calls]. now rewrite stopped_calls. Qed.

Lemma step_calls s e : calls (step s e) = (calls s ++ produced s e)%list.
Proof.
  destruct e as [o| |v|b|b| |d now|id r now|]; cbn [step produced];
    rewrite ?app_nil_r.
  - destruct (Bool.eqb o (open (host s))); [reflexivity|]. apply effect_calls.
  - destruct (cleanup (host s)); [|reflexivity].
    calls_unchanged. apply stopped_calls.
  - reflexivity.
  - destruct (starts (host s)); [reflexivity|].
    rewrite startScanning_calls. now calls_unchanged.
  - destruct (error (cells s)); [|reflexivity].
    now rewrite startScanning_calls.
  - destruct (frames (host s)) as [|[i env] rest]; [reflexivity|].
    rewrite scan_begin_calls. now calls_unchanged.
  - destruct (detecting (host s)) as [|env rest]; [reflexivity|].
    rewrite scan_resume_calls. now calls_unchanged.
  - destruct (lookup id (decoders (host s))); [|reflexivity].
    apply on_decode_calls.
  - destruct (deliveries (host s)) as [|code rest]; [now rewrite app_nil_r|].
    rewrite deliver_calls. now calls_unchanged.
Qed.

Lemma barcode_run_invariant (P : State -> Prop) :
  (forall s e, P s -> P (step s e)) ->
  forall trace s, P s -> P (run s trace).
Proof.
  intros Hstep. induction trace as [|e trace IH]; intros s Hs; simpl.
  - exact Hs.
  - apply IH, Hstep, Hs.
Qed.

Lemma barcode_closes_follow_app owed a b :
  closes_follow owed a = true ->
  closes_follow false b = true ->
  closes_follow owed (a ++ b) = true.
Proof.
  revert owed. induction a as [|c a IH]; intros owed Ha Hb; simpl in *.
  - destruct owed; [discriminate|exact Hb].
  - destruct c; try (apply andb_true_iff in Ha as [-> Ha]; simpl);
      now apply IH.
Qed.

(** X9.  In every run of the barcode dialog each [onDetected] the
    component makes has [onClose] as the very next call. *)
Theorem barcode_detected_then_closed :
  forall trace,
    closes_follow false (calls (run initial trace)) = true.
Proof.
  intros trace.
  apply (barcode_run_invariant (fun s => closes_follow false (calls s) = true));
    [|reflexivity].
  intros s e H. rewrite step_calls. apply barcode_closes_follow_app; [exact H|].
  destruct e; try reflexivity. simpl.
  now destruct (deliveries (host s)).
Qed.

Lemma quiet_step s e :
  from_host e = true ->
  frames (host s) = [] -> detecting (host s) = [] ->
  decoders (host s) = [] -> deliveries (host s) = [] ->
  step s e = s.
Proof.
  intros He Hf Hd Hc Hl.
  destruct e; try discriminate; cbn [step]; rewrite ?Hf, ?Hd, ?Hc, ?Hl;
    reflexivity.
Qed.

Lemma quiet_run s evs :
  forallb from_host evs = true ->
  frames (host s) = [] -> detecting (host s) = [] ->
  decoders (host s) = [] -> deliveries (host s) = [] ->
  run s evs = s.
Proof.
  intros He Hf Hd Hc Hl. induction evs as [|e evs IH]; [reflexivity|].
  simpl in He. apply andb_true_iff in He as [He Hes].
  unfold run; simpl. rewrite (quiet_step s e He Hf Hd Hc Hl). now apply IH.
Qed.

(** X10.  When the camera is refused, or the video element is missing,
    on the first start of either back-end: [scanning] is cleared, the
    error text is the one the error's name and message select, no
    stream or controls are held and no track runs; nothing is queued,
    so whatever frames, detections, decoder callbacks or timers the
    host still runs change nothing and no callback is ever called. *)
Theorem refused_start_leaves_nothing_running :
  forall video native throws name message evs,
    forallb from_host evs = true ->
    let s := run initial
               [SetOpen true; Video video;
                StartTimer (refused_by native throws name message)] in
    scanning (cells s) = false
    /\ error (cells s)
       = Some (if video then classify name message else StartFailed)
    /\ streamRef (refs s) = None
    /\ controlsRef (refs s) = None
    /\ live (host s) = []
    /\ run s evs = s
    /\ calls (run s evs) = [].
Proof.
  intros video native throws name message evs Hevs s.
  assert (Hq : run s evs = s).
  { apply quiet_run; [exact Hevs| | | |];
      destruct video, native; reflexivity. }
  rewrite Hq.
  destruct video, native; repeat split; reflexivity.
Qed.

Lemma refused_start_leaves_nothing_running_witness :
  let evs := [Frame; Decoded 1 (Some "7290000000017") 1700000000000;
              DeliveryTimer] in
  let s := run initial
             [SetOpen true; Video true;
              StartTimer (refused_by true false "NotAllowedError" "denied")] in
  forallb from_host evs = true
  /\ error (cells s) = Some PermissionNeeded
  /\ calls (run s evs) = [].
Proof.
  intros evs s.
  assert (H : forallb from_host evs = true) by reflexivity.
  split; [exact H|].
  destruct (refused_start_leaves_nothing_running
              true true false "NotAllowedError" "denied" evs H)
    as (_ & He & _ & _ & _ & _ & Hc).
  split; [exact He|exact Hc].
Defined.

(** X14.  When a [detect] promise settles with barcodes, only the
    first one counts: its [rawValue], or the empty string when it has
    none, is scheduled for delivery if the time passes the test against
    the closure's [lastDetectionTime], and nothing is scheduled
    otherwise; an empty result or a rejection schedules nothing. *)
Theorem detection_uses_first_barcode :
  forall s env more first rest now,
    detecting (host s) = env :: more ->
    deliveries (host (step s (Detected (Barcodes (first :: rest)) now)))
    = (deliveries (host s)
       ++ if now - lastDetectionTime_c env >? 2000
          then [match first with Some v => v | None => "" end]
          else [])%list
    /\ deliveries (host (step s (Detected (Barcodes []) now)))
       = deliveries (host s)
    /\ deliveries (host (step s (Detected DetectFailed now)))
       = deliveries (host s).
Proof.
  intros s env more first rest now H. cbn [step]. rewrite H.
  unfold scan_resume, accept, request_frame.
  destruct first; destruct (scanning_c env);
    destruct (now - lastDetectionTime_c env >? 2000); cbn;
    rewrite ?app_nil_r; repeat split; reflexivity.
Qed.

Lemma detection_uses_first_barcode_witness :
  let s := run initial
             [SetOpen true; Video true;
              StartTimer (Native (Granted [1%nat])); Frame] in
  let env := {| scanning_c := false; lastDetectionTime_c := 0 |} in
  detecting (host s) = [env]
  /\ deliveries
       (host (step s (Detected (Barcodes [None; Some "7290000000017"])
                        1700000000000)))
     = [""].
Proof.
  intros s env.
  assert (H : detecting (host s) = [env]) by reflexivity.
  split; [exact H|].
  exact (proj1 (detection_uses_first_barcode
                  s env [] None [Some "7290000000017"] 1700000000000 H)).
Defined.

Ltac open_state s :=
  destruct s as [[sc er su lt] [sr bd ar vr st cr]
                 [o cl lv nid fr dt dc sts dl] cs].

Ltac ref_cases ar bd cr sr st :=
  destruct ar as [[|?id]|]; destruct bd; destruct cr as [[?ci ?cm [|]]|];
  destruct sr; destruct st.

(** What teardown leaves alone: the timers and the promises. *)
Lemma stopped_keeps s :
  deliveries (host (stopped s)) = deliveries (host s)
  /\ starts (host (stopped s)) = starts (host s)
  /\ detecting (host (stopped s)) = detecting (host s)
  /\ lastDetectionTime (cells (stopped s)) = lastDetectionTime (cells s)
  /\ next_id (host (stopped s)) = next_id (host s)
  /\ open (host (stopped s)) = open (host s)
  /\ cleanup (host (stopped s)) = cleanup (host s)
  /\ videoRef (refs (stopped s)) = videoRef (refs s).
Proof.
  open_state s. ref_cases ar bd cr sr st; repeat split; reflexivity.
Qed.

Lemma stopped_detector s : barcodeDetectorRef (refs (stopped s)) = false.
Proof. open_state s. ref_cases ar bd cr sr st; reflexivity. Qed.

Lemma lookup_without {A} id (l : list (nat * A)) :
  lookup id (without id l) = None.
Proof.
  unfold lookup, without. induction l as [|[k a] l IH]; simpl; [reflexivity|].
  destruct (k =? id)%nat eqn:E; simpl; [exact IH|]. now rewrite E.
Qed.

Lemma stopped_cancels_frame s id :
  animationRef (refs s) = Some (S id) ->
  lookup (S id) (frames (host (stopped s))) = None.
Proof.
  open_state s. simpl. intros ->.
  destruct bd; destruct cr as [[ci cm [|]]|]; destruct sr; destruct st;
    apply lookup_without.
Qed.

(** X12.  Teardown cancels the frame the loop requested last and drops
    the detector, so a [scan] that still runs afterwards, requested by
    whatever loop, returns at once without asking for a detection. *)
Theorem no_detection_after_teardown :
  forall s id env,
    animationRef (refs s) = Some (S id) ->
    lookup (S id) (frames (host (stopped s))) = None
    /\ scan_begin env (stopped s) = stopped s.
Proof.
  intros s id env H. split; [now apply stopped_cancels_frame|].
  unfold scan_begin. now rewrite stopped_detector.
Qed.

Lemma no_detection_after_teardown_witness :
  let s := run initial
             [SetOpen true; Video true;
              StartTimer (Native (Granted [1%nat]))] in
  let env := {| scanning_c := false; lastDetectionTime_c := 0 |} in
  animationRef (refs s) = Some 1%nat
  /\ lookup 1 (frames (host (stopped s))) = None
  /\ scan_begin env (stopped s) = stopped s.
Proof.
  intros s env.
  assert (H : animationRef (refs s) = Some 1%nat) by reflexivity.
  split; [exact H|].
  exact (no_detection_after_teardown s 0%nat env H).
Defined.

Lemma effect_deliveries o s :
  deliveries (host (effect o s)) = deliveries (host s).
Proof.
  unfold effect.
  assert (H1 : deliveries (host (if cleanup (host s) then stopped s else s))
               = deliveries (host s)).
  { destruct (cleanup (host s)); [apply stopped_keeps|reflexivity]. }
  generalize dependent (if cleanup (host s) then stopped s else s).
  intros s1 H1. rewrite <- H1. clear H1.
  generalize (render s). intros env.
  destruct o.
  - reflexivity.
  - pose proof (proj1 (stopped_keeps s1)) as H2. rewrite <- H2.
    generalize (stopped s1). intros b. reflexivity.
Qed.

(** X13.  Teardown clears no timer: a delivery scheduled before the
    dialog is closed is still pending after [stopScanning], and when
    its 800 ms are over [onDetected] and [onClose] are called although
    the dialog is closed. *)
Theorem delivery_timer_survives_close :
  forall s code rest,
    deliveries (host s) = code :: rest ->
    deliveries (host (stopped s)) = code :: rest
    /\ calls (run s [SetOpen false; DeliveryTimer])
       = (calls s ++ [OnDetected code; OnClose])%list.
Proof.
  intros s code rest H.
  split; [now rewrite (proj1 (stopped_keeps s))|].
  unfold run; cbn [fold_left]. rewrite !step_calls. cbn [produced].
  rewrite app_nil_r.
  assert (E : deliveries (host (step s (SetOpen false))) = code :: rest).
  { cbn [step]. destruct (Bool.eqb false (open (host s))); [exact H|].
    now rewrite effect_deliveries. }
  now rewrite E.
Qed.

Lemma delivery_timer_survives_close_witness :
  let s := run initial
             [SetOpen true; Video true;
              StartTimer (Native (Granted [1%nat])); Frame;
              Detected (Barcodes [Some "7290000000017"]) 1700000000000] in
  deliveries (host s) = ["7290000000017"]
  /\ calls (run s [SetOpen false; DeliveryTimer])
     = (calls s ++ [OnDetected "7290000000017"; OnClose])%list.
Proof.
  intros s.
  assert (H : deliveries (host s) = ["7290000000017"]) by reflexivity.
  split; [exact H|].
  exact (proj2 (delivery_timer_survives_close s "7290000000017" [] H)).
Defined.

Lemma stopped_no_decoders s :
  decoders (host s) = [] -> decoders (host (stopped s)) = [].
Proof.
  open_state s. simpl. intros ->. ref_cases ar bd cr sr st; reflexivity.
Qed.

(** The state in which the body of an effect runs: after the cleanup
    of the run before, when there is one. *)
Lemma after_cleanup_keeps s :
  let s1 := if cleanup (host s) then stopped s else s in
  starts (host s1) = starts (host s)
  /\ deliveries (host s1) = deliveries (host s)
  /\ next_id (host s1) = next_id (host s)
  /\ videoRef (refs s1) = videoRef (refs s)
  /\ (decoders (host s) = [] -> decoders (host s1) = []).
Proof.
  destruct (stopped_keeps s) as (Hd & Hs & _ & _ & Hn & _ & _ & Hv).
  destruct (cleanup (host s)); simpl.
  - repeat split; try assumption. apply stopped_no_decoders.
  - repeat split. exact (fun H => H).
Qed.

(** X11.  The debounce test compares with the [lastDetectionTime] of
    the render that opened the dialog.  When a component that stayed
    mounted is opened again, [startScanning] resets the state cell to
    0, but a decoded result is accepted only if it comes more than
    2000 ms after the last acceptance of the session before. *)
Theorem debounce_spans_sessions :
  forall s m throws code now,
    open (host s) = false ->
    starts (host s) = [] ->
    decoders (host s) = [] ->
    videoRef (refs s) = true ->
    let s2 := run s [SetOpen true; StartTimer (ZXing (Granted m) throws)] in
    lastDetectionTime (cells s2) = 0
    /\ deliveries (host (step s2 (Decoded (next_id (host s)) (Some code) now)))
       = (deliveries (host s)
          ++ if now - lastDetectionTime (cells s) >? 2000
             then [code] else [])%list.
Proof.
  intros s m throws code now Ho Hs Hd Hv.
  unfold run; cbn [fold_left].
  assert (E : step s (SetOpen true) = effect true s)
    by (cbn [step]; now rewrite Ho).
  rewrite E. clear E. unfold effect.
  destruct (after_cleanup_keeps s) as (Fs & Fd & Fn & Fv & Fc).
  rewrite Hs in Fs. rewrite Hv in Fv. specialize (Fc Hd).
  rewrite <- Fd, <- Fn.
  set (env := render s).
  assert (Henv : lastDetectionTime_c env = lastDetectionTime (cells s))
    by reflexivity.
  rewrite <- Henv. clearbody env.
  generalize dependent (if cleanup (host s) then stopped s else s).
  intros s1 Fs Fd Fn Fv Fc.
  open_state s1. simpl in Fs, Fv, Fc. subst sts vr dc.
  match goal with
  | |- lastDetectionTime (cells ?x) = _ /\ _ => set (sa := x)
  end.
  assert (A1 : lastDetectionTime (cells sa) = 0) by reflexivity.
  assert (A2 : decoders (host sa) = [(nid, env)]) by reflexivity.
  assert (A3 : deliveries (host sa) = dl) by reflexivity.
  clearbody sa. split; [exact A1|].
  cbn [step]. rewrite A2. unfold lookup. cbn [find fst snd].
  rewrite Nat.eqb_refl. cbn [on_decode snd]. unfold accept.
  destruct (now - lastDetectionTime_c env >? 2000);
    cbn; now rewrite A3, ?app_nil_r.
Qed.

Lemma debounce_spans_sessions_witness :
  let s := run initial
             [SetOpen true; Video true;
              StartTimer (ZXing (Granted [1%nat]) false);
              Decoded 1 (Some "7290000000017") 1700000000000;
              DeliveryTimer; SetOpen false] in
  let s2 := run s [SetOpen true; StartTimer (ZXing (Granted [2%nat]) false)] in
  open (host s) = false /\ starts (host s) = [] /\ decoders (host s) = []
  /\ videoRef (refs s) = true
  /\ lastDetectionTime (cells s) = 1700000000000
  /\ deliveries
       (host (step s2 (Decoded (next_id (host s)) (Some "7290000000024")
                         1700000001500)))
     = [].
Proof.
  intros s s2.
  assert (Ho : open (host s) = false) by reflexivity.
  assert (Hs : starts (host s) = []) by reflexivity.
  assert (Hd : decoders (host s) = []) by reflexivity.
  assert (Hv : videoRef (refs s) = true) by reflexivity.
  split; [exact Ho|]. split; [exact Hs|]. split; [exact Hd|].
  split; [exact Hv|]. split; [reflexivity|].
  exact (proj2 (debounce_spans_sessions
                  s [2%nat] false "7290000000024" 1700000001500
                  Ho Hs Hd Hv)).
Defined.

Lemma open_then_close s :
  open (host s) = false ->
  starts (host s) = [] ->
  videoRef (refs s) = true ->
  exists b,
    run s [SetOpen true; SetOpen false] = set_cleanup true (set_open false b)
    /\ starts (host b) = [render s]
    /\ videoRef (refs b) = true.
Proof.
  intros Ho Hs Hv.
  unfold run; cbn [fold_left].
  assert (E : step s (SetOpen true) = effect true s)
    by (cbn [step]; now rewrite Ho).
  rewrite E. clear E. unfold effect.
  destruct (after_cleanup_keeps s) as (Fs & _ & _ & Fv & _).
  rewrite Hs in Fs. rewrite Hv in Fv.
  generalize dependent (if cleanup (host s) then stopped s else s).
  intros s1 Fs Fv. rewrite Fs.
  set (a := set_cleanup true (set_open true (set_starts ([] ++ [render s]) s1))).
  assert (Ha : starts (host a) = [render s]) by reflexivity.
  assert (Hva : videoRef (refs a) = true) by exact Fv.
  assert (Hca : cleanup (host a) = true) by reflexivity.
  assert (Hoa : open (host a) = true) by reflexivity.
  clearbody a.
  cbn [step]. rewrite Hoa. cbn [Bool.eqb]. unfold effect. rewrite Hca.
  exists (stopped (stopped a)). split; [reflexivity|].
  destruct (stopped_keeps a) as (_ & As & _ & _ & _ & _ & _ & Av).
  destruct (stopped_keeps (stopped a)) as (_ & Bs & _ & _ & _ & _ & _ & Bv).
  split; congruence.
Qed.

(** X15.  Closing the dialog does not cancel the 100 ms start timer:
    if the dialog is opened and closed before the timer fires and the
    video element is still there, the scanner starts with the dialog
    closed, sets [scanning] and keeps the camera stream it was given. *)
Theorem start_timer_survives_close :
  forall s m,
    open (host s) = false ->
    starts (host s) = [] ->
    videoRef (refs s) = true ->
    let s2 := run s [SetOpen true; SetOpen false] in
    let s3 := step s2 (StartTimer (Native (Granted m))) in
    starts (host s2) = [render s]
    /\ open (host s3) = false
    /\ scanning (cells s3) = true
    /\ streamRef (refs s3) = Some m
    /\ incl m (live (host s3)).
Proof.
  intros s m Ho Hs Hv s2 s3.
  destruct (open_then_close s Ho Hs Hv) as (b & E & Bs & Bv).
  subst s3 s2. rewrite E. clear E.
  generalize dependent (render s). intros env Bs.
  open_state b. simpl in Bs, Bv. subst sts vr.
  cbn. repeat split. intros t Ht. apply in_or_app. now right.
Qed.

Lemma start_timer_survives_close_witness :
  let s := run initial [Video true] in
  let s3 := run s [SetOpen true; SetOpen false;
                   StartTimer (Native (Granted [1%nat]))] in
  open (host s) = false /\ starts (host s) = [] /\ videoRef (refs s) = true
  /\ open (host s3) = false
  /\ scanning (cells s3) = true
  /\ streamRef (refs s3) = Some [1%nat].
Proof.
  intros s s3.
  assert (Ho : open (host s) = false) by reflexivity.
  assert (Hs : starts (host s) = []) by reflexivity.
  assert (Hv : videoRef (refs s) = true) by reflexivity.
  split; [exact Ho|]. split; [exact Hs|]. split; [exact Hv|].
  destruct (start_timer_survives_close s [1%nat] Ho Hs Hv)
    as (_ & H1 & H2 & H3 & _).
  split; [exact H1|]. split; [exact H2|exact H3].
Defined.

End BarcodeMore.

(* ================================================================== *)
(** ** What the validity test looks at *)
(* ================================================================== *)

Module DateTest.
Import JS Expiry ExpiryProofs.






End DateTest.
